(** * ATS scoring back end: feature extraction and rule-based scoring

    A shallow embedding of [ml-backend/services/feature_extraction.py],
    [ml-backend/services/ml_service.py] and of the reference scorer of
    [ml-backend/training/generate_synthetic_data_v2.py], with the properties
    of the specification stated and proved over it.

    Conventions of the embedding.
    - A Python [str] is a list of Unicode code points ([text]).  The
      classification of code points (word character, digit, case) is
      Python's on the ASCII range; code points above 127 are caseless and
      are neither letters nor digits.  That is exact for the glyphs the
      source itself mentions (bullets, the en dash); texts with letters or
      digits outside ASCII are outside the model.  White space is the full
      Unicode set Python uses.
    - A Python [int] is a [Z]; a Python [float] is an exact rational [Q]:
      rounding and range of binary64 are not modelled.
    - A Python [set] is a [gset], a [dict] a [gmap], a [list] a [list].
    - Code that can raise runs in the [result] monad; [try_except] is the
      source's [try: ... except: ...]. *)

From Stdlib Require Import ZArith QArith Qround Qminmax Lia Lqa String Ascii List Bool Sorted.
From stdpp Require Import gmap strings list.

Open Scope Z_scope.
Open Scope N_scope.
Open Scope nat_scope.

(** ** Python strings *)

Abbreviation text := (list N).

Module PyStr.

(** A string literal of the source, as code points. *)
Definition str (s : string) : text :=
  map N_of_ascii (list_ascii_of_string s).

Definition in_range (lo hi c : N) : bool := ((lo <=? c) && (c <=? hi))%N.

Definition is_digit (c : N) : bool := in_range 48 57 c.
Definition is_lower (c : N) : bool := in_range 97 122 c.
Definition is_upper (c : N) : bool := in_range 65 90 c.
Definition is_alpha (c : N) : bool := is_lower c || is_upper c.

(** [\w]: alphanumeric or underscore. *)
Definition is_word (c : N) : bool := is_alpha c || is_digit c || (c =? 95)%N.

(** [\s] and [str.isspace]: tab to carriage return, the four separators
    28 to 31, space, and the Unicode spaces. *)
Definition is_space (c : N) : bool :=
  in_range 9 13 c || in_range 28 32 c || (c =? 133)%N || (c =? 160)%N
  || (c =? 5760)%N || in_range 8192 8202 c || (c =? 8232)%N
  || (c =? 8233)%N || (c =? 8239)%N || (c =? 8287)%N || (c =? 12288)%N.

Definition to_lower (c : N) : N := if is_upper c then (c + 32)%N else c.
Definition to_upper (c : N) : N := if is_lower c then (c - 32)%N else c.

(** [s.lower()] *)
Definition lower (s : text) : text := map to_lower s.

(** [s.startswith(p)] *)
Fixpoint startswith (p s : text) : bool :=
  match p, s with
  | [], _ => true
  | _ :: _, [] => false
  | x :: p', y :: s' => (x =? y)%N && startswith p' s'
  end.

(** [s.endswith(p)] *)
Definition endswith (p s : text) : bool := startswith (rev p) (rev s).

(** [p in s] *)
Fixpoint contains (p s : text) : bool :=
  startswith p s || match s with [] => false | _ :: s' => contains p s' end.

(** [s.count(p)]: occurrences of [p] in [s] that do not overlap, from the
    left; the source only counts single characters. *)
Fixpoint count_from (p s : text) (skip : nat) : nat :=
  match s with
  | [] => 0
  | _ :: s' =>
      match skip with
      | S n => count_from p s' n
      | O => if startswith p s then S (count_from p s' (length p - 1))
             else count_from p s' 0
      end
  end.
Definition count (p s : text) : nat :=
  match p with [] => S (length s) | _ => count_from p s 0 end.

Fixpoint lstrip (s : text) : text :=
  match s with
  | c :: s' => if is_space c then lstrip s' else s
  | [] => []
  end.

(** [s.strip()] *)
Definition strip (s : text) : text := rev (lstrip (rev (lstrip s))).

(** [s.split(sep)] for a separator of one character. *)
Fixpoint split_on (sep : N) (s : text) : list text :=
  match s with
  | [] => [[]]
  | c :: s' =>
      if (c =? sep)%N then [] :: split_on sep s'
      else match split_on sep s' with
           | piece :: rest => (c :: piece) :: rest
           | [] => [[c]]
           end
  end.

(** [s.replace(c, '')] for a single character [c]. *)
Definition remove_char (c : N) (s : text) : text :=
  filter (fun x => negb (x =? c)%N) s.

(** [s[:-n]] *)
Definition drop_last (n : nat) (s : text) : text := take (length s - n) s.

(** [sep.join(parts)] on Rocq strings (used for messages). *)
Fixpoint join (sep : string) (parts : list string) : string :=
  match parts with
  | [] => EmptyString
  | [p] => p
  | p :: rest => (p ++ sep ++ join sep rest)%string
  end.

End PyStr.

(** ** Regular expressions

    The fragment of Python's [re] the source uses, as a backtracking matcher
    with ordered choice: the first alternative that lets the rest of the
    pattern match wins, greedy repetitions try more iterations first, lazy
    ones fewer.  Every repeated body in the source's patterns consumes at
    least one character, and an iteration that consumes none is not taken. *)

Module Re.
Import PyStr.

Inductive regex : Type :=
| Eps                                   (* the empty pattern *)
| Chr (p : N → bool)                    (* a literal or a class [...] *)
| AnyChar                               (* .  *)
| Cat (r1 r2 : regex)
| Alt (r1 r2 : regex)                   (* r1|r2 *)
| Rep (greedy : bool) (lo : nat) (hi : option nat) (r : regex)
| WordB                                 (* \b *)
| EndLine                               (* $  *)
| EndStr                                (* \Z *)
| Ahead (positive : bool) (r : regex)   (* (?=r) and (?!r) *)
| Group (i : nat) (r : regex).          (* the i-th capturing group *)

Record flags := { IGNORECASE : bool; DOTALL : bool }.
Definition no_flags := {| IGNORECASE := false; DOTALL := false |}.
Definition ignorecase := {| IGNORECASE := true; DOTALL := false |}.
Definition dotall_ignorecase := {| IGNORECASE := true; DOTALL := true |}.

(** Captured groups, most recent first. *)
Definition caps := list (nat * text).

(** A match: the reversed text before its end, the text after it, and the
    groups. *)
Definition outcome := (text * text * caps)%type.

Definition word_at (s : text) : bool :=
  match s with c :: _ => is_word c | [] => false end.

Definition chr_ok (fl : flags) (p : N → bool) (c : N) : bool :=
  p c || (IGNORECASE fl && (p (to_lower c) || p (to_upper c))).

Definition any_ok (fl : flags) (c : N) : bool :=
  DOTALL fl || negb (c =? 10)%N.

(** A continuation, and a matcher that is given one. *)
Definition cont := text → text → caps → option outcome.
Definition matcher := text → text → caps → cont → option outcome.

(** The loop of a repetition of [step], at least [lo] times: [i]
    iterations are done and at most [fuel] more may follow.  An iteration
    has to consume a character. *)
Fixpoint rep_loop (step : matcher) (greedy : bool) (lo : nat) (k : cont)
    (fuel i : nat) (b a : text) (c : caps) {struct fuel} : option outcome :=
  match fuel with
  | O => if lo <=? i then k b a c else None
  | S fuel' =>
      if greedy then
        match step b a c (fun b' a' c' =>
                if length a' <? length a
                then rep_loop step greedy lo k fuel' (S i) b' a' c'
                else None) with
        | Some o => Some o
        | None => if lo <=? i then k b a c else None
        end
      else
        match (if lo <=? i then k b a c else None) with
        | Some o => Some o
        | None => step b a c (fun b' a' c' =>
                if length a' <? length a
                then rep_loop step greedy lo k fuel' (S i) b' a' c'
                else None)
        end
  end.

(** [rmatch fl r b a c k]: match [r] at the position that has [b]
    (reversed) before it and [a] after it, then continue with [k]. *)
Fixpoint rmatch (fl : flags) (r : regex) (b a : text) (c : caps)
    (k : cont) {struct r} : option outcome :=
  match r with
  | Eps => k b a c
  | Chr p =>
      match a with
      | x :: a' => if chr_ok fl p x then k (x :: b) a' c else None
      | [] => None
      end
  | AnyChar =>
      match a with
      | x :: a' => if any_ok fl x then k (x :: b) a' c else None
      | [] => None
      end
  | Cat r1 r2 =>
      rmatch fl r1 b a c (fun b' a' c' => rmatch fl r2 b' a' c' k)
  | Alt r1 r2 =>
      match rmatch fl r1 b a c k with
      | Some o => Some o
      | None => rmatch fl r2 b a c k
      end
  | Rep greedy lo hi r' =>
      rep_loop (rmatch fl r') greedy lo k
        (match hi with Some h => h | None => length a end) O b a c
  | WordB => if xorb (word_at b) (word_at a) then k b a c else None
  | EndLine =>
      match a with
      | [] => k b a c
      | [x] => if (x =? 10)%N then k b a c else None
      | _ => None
      end
  | EndStr => match a with [] => k b a c | _ => None end
  | Ahead positive r' =>
      match rmatch fl r' b a c (fun b' a' c' => Some (b', a', c')) with
      | Some _ => if positive then k b a c else None
      | None => if positive then None else k b a c
      end
  | Group i r' =>
      rmatch fl r' b a c (fun b' a' c' =>
        k b' a' ((i, rev (take (length b' - length b) b')) :: c'))
  end.

Definition accept : cont := fun b a c => Some (b, a, c).

(** What a continuation is called with: a position further in the text,
    over a part [mid] of what followed. *)
Definition reaches (k : cont) (b a : text) (o : outcome) : Prop :=
  ∃ mid a' c', a = mid ++ a' ∧ k (rev mid ++ b) a' c' = Some o.

(** One match object: the matched text and its groups. *)
Record mtch := { m_text : text; m_groups : caps }.

Definition mk_match (b : text) (o : outcome) : mtch :=
  let '(b', _, c) := o in
  {| m_text := rev (take (length b' - length b) b'); m_groups := c |}.

(** The first match at or after the current position. *)
Fixpoint search_from (fl : flags) (r : regex) (b a : text) : option mtch :=
  match rmatch fl r b a [] accept with
  | Some o => Some (mk_match b o)
  | None =>
      match a with
      | [] => None
      | x :: a' => search_from fl r (x :: b) a'
      end
  end.

(** [re.search(r, s, flags)] *)
Definition search (r : regex) (s : text) (fl : flags) : option mtch :=
  search_from fl r [] s.

(** All matches from the left that do not overlap; [skip] counts the
    characters of the last match still to step over.  After an empty match
    the scan moves on by one character; no pattern of the source matches
    the empty text. *)
Fixpoint scan (fl : flags) (r : regex) (b a : text) (skip : nat) : list mtch :=
  match skip with
  | S n =>
      match a with
      | [] => []
      | x :: a' => scan fl r (x :: b) a' n
      end
  | O =>
      match rmatch fl r b a [] accept with
      | Some o =>
          mk_match b o ::
          match a with
          | [] => []
          | x :: a' => scan fl r (x :: b) a' (length (m_text (mk_match b o)) - 1)
          end
      | None =>
          match a with
          | [] => []
          | x :: a' => scan fl r (x :: b) a' 0
          end
      end
  end.

(** [re.finditer]; [re.findall(r, s, flags)] is this list, read as the
    matched texts for a pattern without groups and as the groups
    otherwise. *)
Definition finditer (r : regex) (s : text) (fl : flags) : list mtch :=
  scan fl r [] s 0.

Definition findall (r : regex) (s : text) (fl : flags) : list text :=
  map m_text (finditer r s fl).

(** [m.group(i)] of a group that took part in the match. *)
Definition group (i : nat) (m : mtch) : text :=
  match find (fun p => fst p =? i) (m_groups m) with
  | Some p => snd p
  | None => []
  end.

(** [re.split(r, s)] for a pattern that matches no empty text: the pieces
    between the matches.  [piece] is the current piece, reversed. *)
Fixpoint split_scan (fl : flags) (r : regex) (b a : text) (skip : nat)
    (piece : text) : list text :=
  match skip with
  | S n =>
      match a with
      | [] => [rev piece]
      | x :: a' => split_scan fl r (x :: b) a' n piece
      end
  | O =>
      match a with
      | [] => [rev piece]
      | x :: a' =>
          match rmatch fl r b a [] accept with
          | Some o =>
              match length (m_text (mk_match b o)) with
              | O => split_scan fl r (x :: b) a' 0 (x :: piece)
              | S n => rev piece :: split_scan fl r (x :: b) a' n []
              end
          | None => split_scan fl r (x :: b) a' 0 (x :: piece)
          end
      end
  end.

Definition split (r : regex) (s : text) (fl : flags) : list text :=
  split_scan fl r [] s 0 [].

(** *** Pattern syntax *)

Definition is_chr (c : string) : N → bool :=
  fun x => existsb (N.eqb x) (str c).
(** One of the characters of [s]: a literal character or a class. *)
Definition one_of (s : string) : regex := Chr (is_chr s).
Definition cp (n : N) : regex := Chr (N.eqb n).

Fixpoint seq (rs : list regex) : regex :=
  match rs with
  | [] => Eps
  | [r] => r
  | r :: rs' => Cat r (seq rs')
  end.

Fixpoint alt (rs : list regex) : regex :=
  match rs with
  | [] => Chr (fun _ => false)
  | [r] => r
  | r :: rs' => Alt r (alt rs')
  end.

(** A literal word; [re.escape] of a name is this too. *)
Definition lit (s : string) : regex :=
  seq (map (fun c => Chr (N.eqb c)) (str s)).

Definition opt (r : regex) : regex := Rep true 0 (Some 1) r.      (* r?  *)
Definition star (r : regex) : regex := Rep true 0 None r.         (* r*  *)
Definition plus (r : regex) : regex := Rep true 1 None r.         (* r+  *)
Definition lazy_star (r : regex) : regex := Rep false 0 None r.   (* r*? *)
Definition times (lo hi : nat) (r : regex) : regex := Rep true lo (Some hi) r.
Definition at_least (lo : nat) (r : regex) : regex := Rep true lo None r.

Definition d : regex := Chr is_digit.                              (* \d *)
Definition w : regex := Chr is_word.                               (* \w *)
Definition s : regex := Chr is_space.                              (* \s *)

End Re.

(** ** Numbers, exceptions and dynamically typed values *)

Module Py.

Inductive exn : Set :=
| ZeroDivisionError | ValueError | IndexError | AttributeError | LibraryError.

Inductive result (A : Type) : Type :=
| Ok (a : A)
| Raise (e : exn).
Arguments Ok {A} a.
Arguments Raise {A} e.

Definition bind {A B} (m : result A) (f : A → result B) : result B :=
  match m with
  | Ok a => f a
  | Raise e => Raise e
  end.

(** [try: body  except: handler] *)
Definition try_except {A} (body : result A) (handler : result A) : result A :=
  match body with
  | Ok a => Ok a
  | Raise _ => handler
  end.

Definition is_ok {A} (m : result A) : bool :=
  match m with Ok _ => true | Raise _ => false end.

(** [a / b] *)
Definition div (a b : Q) : result Q :=
  if Qeq_bool b 0 then Raise ZeroDivisionError else Ok (a / b)%Q.

(** [max(l)] of a list; Python raises on the empty one. *)
Definition max_list (l : list Z) : result Z :=
  match l with
  | [] => Raise ValueError
  | x :: l' => Ok (fold_left Z.max l' x)
  end.

(** The limit CPython puts on the digits [int] converts. *)
Definition int_max_str_digits : nat := 4300.

Definition digit_val (c : N) : Z := Z.of_N c - 48.

(** [int(s)] for the texts the source hands it, runs of digits: it raises
    on anything else and on a run above the digit limit. *)
Definition int (s : text) : result Z :=
  match s with
  | [] => Raise ValueError
  | _ =>
      if forallb PyStr.is_digit s && (length s <=? int_max_str_digits)
      then Ok (fold_left (fun acc c => 10 * acc + digit_val c) s 0)%Z
      else Raise ValueError
  end.

(** Round half to even, to an integer. *)
Definition round_half_even (x : Q) : Z :=
  let f := Qfloor x in
  let r := (x - inject_Z f)%Q in
  match (r ?= 1 # 2)%Q with
  | Lt => f
  | Gt => (f + 1)%Z
  | Eq => if Z.even f then f else (f + 1)%Z
  end.

(** [round(x, ndigits)] *)
Definition round (x : Q) (ndigits : nat) : Q :=
  let scale := inject_Z (10 ^ Z.of_nat ndigits) in
  (inject_Z (round_half_even (x * scale)) / scale)%Q.

(** The values a feature dictionary holds. *)
Inductive value : Type :=
| VBool (b : bool)
| VInt (n : Z)
| VFloat (q : Q).

(** The number a value stands for in arithmetic and comparisons:
    [True] is 1 and [False] is 0. *)
Definition num (v : value) : Q :=
  match v with
  | VBool b => if b then 1 else 0
  | VInt n => inject_Z n
  | VFloat q => q
  end.

(** Truth value of [v] in a condition. *)
Definition truthy (v : value) : bool :=
  match v with
  | VBool b => b
  | VInt n => negb (n =? 0)%Z
  | VFloat q => negb (Qeq_bool q 0)
  end.

(** [d.get(key, default)] *)
Definition get {V} (dict : gmap string V) (key : string) (default : V) : V :=
  match dict !! key with
  | Some v => v
  | None => default
  end.

Definition Qltb (a b : Q) : bool :=
  match (a ?= b)%Q with Lt => true | _ => false end.

End Py.

#[global] Instance result_ret : MRet Py.result := @Py.Ok.
#[global] Instance result_bind : MBind Py.result :=
  fun A B f m => Py.bind m f.

(** ** The feature extractor ([services/feature_extraction.py]) *)

Module FeatureExtractor.
Import PyStr Re Py.

Local Open Scope string_scope.

(** The vocabulary of a Python set of string literals. *)
Definition vocabulary (words : list string) : gset text :=
  list_to_set (map str words).

Definition ACTION_VERBS : gset text :=
  vocabulary [
    "led"; "managed"; "directed"; "supervised"; "coordinated"; "oversaw";
    "headed"; "spearheaded"; "orchestrated"; "pioneered"; "founded";
    "achieved"; "accomplished"; "attained"; "exceeded"; "surpassed";
    "earned"; "won"; "awarded"; "recognized"; "honored"; "promoted";
    "created"; "developed"; "designed"; "built"; "established"; "launched";
    "initiated"; "introduced"; "invented"; "originated"; "formulated";
    "improved"; "enhanced"; "optimized"; "streamlined"; "upgraded";
    "modernized"; "revitalized"; "transformed"; "revolutionized";
    "restructured"; "refined"; "analyzed"; "evaluated"; "assessed";
    "researched"; "investigated"; "examined"; "diagnosed"; "identified";
    "discovered"; "measured"; "quantified"; "presented"; "communicated";
    "negotiated"; "persuaded"; "influenced"; "advocated"; "collaborated";
    "partnered"; "liaised"; "consulted"; "mentored"; "trained";
    "implemented"; "deployed"; "integrated"; "automated"; "engineered";
    "programmed"; "architected"; "configured"; "migrated"; "scaled";
    "debugged"; "tested"; "increased"; "decreased"; "reduced"; "generated";
    "delivered"; "executed"; "accelerated"; "expanded"; "consolidated";
    "maximized"; "minimized" ].

(** The sections in the order of the source's dictionary. *)
Definition SECTION_KEYWORDS : list (string * list string) :=
  [ ("summary",
     [ "summary"; "profile"; "objective"; "about"; "overview";
       "introduction" ]);
    ("experience",
     [ "experience"; "employment"; "work history";
       "professional experience"; "career history"; "relevant experience" ]);
    ("education",
     [ "education"; "academic"; "qualification"; "degree"; "university";
       "college"; "school" ]);
    ("skills",
     [ "skills"; "technical skills"; "competencies"; "expertise";
       "proficiencies"; "technologies"; "tools" ]);
    ("projects",
     [ "projects"; "portfolio"; "key projects"; "personal projects" ]);
    ("certifications",
     [ "certifications"; "certificates"; "licenses"; "credentials";
       "professional development" ]) ].

Definition TECH_SKILLS : gset text :=
  vocabulary [
    "python"; "java"; "javascript"; "typescript"; "c++"; "c#"; "ruby";
    "php"; "swift"; "kotlin"; "go"; "golang"; "rust"; "scala"; "r";
    "matlab"; "perl"; "objective-c"; "dart"; "lua"; "haskell"; "clojure";
    "elixir"; "f#"; "react"; "angular"; "vue"; "svelte"; "next.js";
    "nextjs"; "nuxt"; "gatsby"; "django"; "flask"; "fastapi"; "express";
    "node.js"; "nodejs"; "spring"; "rails"; "laravel"; "asp.net"; ".net";
    "dotnet"; "tensorflow"; "pytorch"; "keras"; "scikit-learn"; "sklearn";
    "pandas"; "numpy"; "spark"; "hadoop"; "kafka"; "airflow"; "mlflow";
    "huggingface"; "aws"; "azure"; "gcp"; "google cloud";
    "amazon web services"; "heroku"; "digitalocean"; "cloudflare";
    "vercel"; "netlify"; "docker"; "kubernetes"; "k8s"; "jenkins";
    "circleci"; "github actions"; "gitlab ci"; "terraform"; "ansible";
    "puppet"; "chef"; "vagrant"; "sql"; "mysql"; "postgresql"; "postgres";
    "mongodb"; "redis"; "elasticsearch"; "dynamodb"; "cassandra"; "oracle";
    "sqlite"; "mariadb"; "neo4j"; "graphql"; "git"; "github"; "gitlab";
    "bitbucket"; "jira"; "confluence"; "slack"; "figma"; "sketch";
    "postman"; "swagger"; "nginx"; "apache"; "rest"; "restful"; "api";
    "microservices"; "serverless"; "ci/cd"; "cicd"; "agile"; "scrum";
    "kanban"; "devops"; "sre"; "tdd"; "bdd"; "machine learning";
    "deep learning"; "nlp"; "computer vision"; "ai"; "data science";
    "data engineering"; "etl"; "data pipeline" ].

Definition JOB_TITLES : gset text :=
  vocabulary [
    "engineer"; "developer"; "programmer"; "architect"; "analyst";
    "scientist"; "manager"; "director"; "vp"; "vice president"; "lead";
    "principal"; "senior"; "junior"; "staff"; "intern"; "associate";
    "consultant"; "specialist"; "coordinator"; "administrator";
    "executive"; "officer"; "head"; "chief"; "cto"; "ceo"; "cfo"; "coo";
    "cio"; "founder"; "co-founder" ].

Definition languages : gset text :=
  vocabulary [
    "python"; "java"; "javascript"; "typescript"; "c++"; "c#"; "ruby";
    "php"; "swift"; "kotlin"; "go"; "golang"; "rust"; "scala"; "r";
    "matlab"; "perl"; "objective-c"; "dart"; "lua"; "haskell"; "clojure";
    "elixir"; "f#"; "groovy"; "julia"; "cobol"; "fortran"; "assembly" ].

Definition filler_words : gset text :=
  vocabulary [
    "the"; "and"; "for"; "with"; "this"; "that"; "from"; "have"; "will";
    "your"; "our"; "you"; "are"; "can"; "they"; "their"; "about"; "more";
    "been"; "being"; "would"; "could"; "should"; "also"; "other"; "than";
    "just"; "only"; "over"; "such"; "into"; "through"; "during"; "before";
    "after"; "above"; "below"; "between"; "under"; "again"; "further";
    "then"; "once"; "here"; "there"; "when"; "where"; "which"; "while";
    "company"; "team"; "work"; "working"; "looking"; "position"; "role";
    "experience"; "required"; "requirements"; "qualifications"; "skills";
    "ability"; "knowledge"; "understanding"; "excellent"; "strong"; "good" ].

(** The vocabularies are constants: instance search never looks inside
    them. *)
#[global] Typeclasses Opaque ACTION_VERBS TECH_SKILLS JOB_TITLES languages
  filler_words.

(** *** Helpers for the calls of [re] *)

Definition lit_text (t : text) : regex :=
  seq (map (fun c => Chr (N.eqb c)) t).

(** [bool(re.search(r, s, flags))] *)
Definition found (r : regex) (txt : text) (fl : flags) : bool :=
  match search r txt fl with Some _ => true | None => false end.

(** [len(re.findall(r, s, flags))] *)
Definition count_matches (r : regex) (txt : text) (fl : flags) : Z :=
  Z.of_nat (length (finditer r txt fl)).

Definition newline : N := 10%N.
Definition en_dash : N := 8211%N.
Definition is_dash (c : N) : bool := (c =? 45)%N || (c =? en_dash)%N.
Definition is_sep (c : N) : bool := is_chr "-." c || is_space c.
(** word followed by an optional s, as in [users?] *)
Definition plural (word : string) : regex := seq [lit word; opt (lit "s")].
(** verb stem followed by an optional d, as in [increased?] *)
Definition past (stem : string) : regex := seq [lit stem; opt (lit "d")].
Definition dot_opt : regex := opt (lit ".").
Definition bounded (rs : list regex) : regex := seq ([WordB] ++ rs ++ [WordB]).

(** *** Text statistics *)

(** [\b\w+\b] *)
Definition word_pattern : regex := bounded [plus w].

Definition _count_words (txt : text) : Z :=
  let words := findall word_pattern txt no_flags in
  Z.of_nat (length words).

(** [[.!?]+(?:\s|$)] *)
Definition sentence_end : regex := seq [plus (one_of ".!?"); alt [s; EndLine]].

Definition _count_sentences (txt : text) : Z :=
  let sentences := split sentence_end txt no_flags in
  Z.of_nat (length (List.filter
    (fun x => negb (Nat.eqb 0 (length (strip x)))
              && Nat.ltb 10 (length (strip x)))
    sentences)).

(** *** Structure *)

(** [\bNAME\b\s*[:\n]?] *)
Definition section_header (name : string) : regex :=
  seq [WordB; lit name; WordB; star s;
       opt (Chr (fun c => (c =? 58)%N || (c =? newline)%N))].

Definition _count_sections (txt : text) : Z :=
  Z.of_nat (length (List.filter
    (fun section_names =>
       existsb (fun name => found (section_header name) txt ignorecase)
               (snd section_names))
    SECTION_KEYWORDS)).

Definition section_keywords (section : string) : list string :=
  match find (fun kv => String.eqb (fst kv) section) SECTION_KEYWORDS with
  | Some kv => snd kv
  | None => []
  end.

Definition _has_section (txt : text) (section : string) : bool :=
  existsb (fun keyword => found (bounded [lit keyword]) txt ignorecase)
          (section_keywords section).

(** *** Contact information *)

Definition email_pattern : regex :=
  bounded [ plus (Chr (fun c => is_alpha c || is_digit c || is_chr "._%+-" c));
            lit "@";
            plus (Chr (fun c => is_alpha c || is_digit c || is_chr ".-" c));
            lit ".";
            at_least 2 (Chr (fun c => is_alpha c || is_chr "|" c)) ].

Definition _has_email (txt : text) : bool := found email_pattern txt ignorecase.

Definition phone_patterns : list regex :=
  [ seq [ opt (Group 1 (seq [opt (lit "+"); times 1 3 d; opt (Chr is_sep)]));
          opt (lit "("); times 3 3 d; opt (lit ")"); opt (Chr is_sep);
          times 3 3 d; opt (Chr is_sep); times 4 4 d ];
    seq [ lit "+"; times 10 14 d ];
    seq [ times 3 3 d; Chr is_sep; times 3 3 d; Chr is_sep; times 4 4 d ] ].

Definition _has_phone (txt : text) : bool :=
  existsb (fun pattern => found pattern txt no_flags) phone_patterns.

Definition _has_linkedin (txt : text) : bool :=
  existsb (fun p => contains (str p) txt)
          ["linkedin.com"; "linkedin:"; "/in/"; "linkedin"].

Definition _has_github (txt : text) : bool :=
  existsb (fun p => contains (str p) txt)
          ["github.com"; "github:"; "github.io"; "github"].

(** *** Content quality *)

Definition is_action_verb (word : text) : bool :=
  if bool_decide (word ∈ ACTION_VERBS) then true
  else if endswith (str "ed") word
          && bool_decide (drop_last 2 word ∈ ACTION_VERBS) then true
  else endswith (str "ing") word
       && bool_decide (drop_last 3 word ∈ ACTION_VERBS).

Definition _count_action_verbs (txt : text) : Z :=
  let words := findall word_pattern txt no_flags in
  Z.of_nat (length (List.filter is_action_verb words)).

Definition metric_patterns : list regex :=
  [ seq [plus d; lit "%"];
    seq [lit "$"; plus (Chr (fun c => is_digit c || is_chr "," c));
         opt (one_of "kmb")];
    seq [plus d; one_of "kmb"; opt (lit "+")];
    seq [plus d; lit "+"];
    seq [plus d; lit "x"];
    seq [plus d; star s;
         alt [plural "user"; plural "customer"; plural "client"; lit "people";
              lit "team"; plural "engineer"; plural "member"]];
    seq [alt [past "increase"; past "decrease"; past "reduce"; past "improve";
              seq [lit "gre"; opt (lit "w")]; past "save"];
         lazy_star AnyChar; plus d];
    seq [plus d; star s;
         alt [plural "year"; plural "month"; plural "week"; plural "day";
              plural "hour"]] ].

Definition sumZ (l : list Z) : Z := fold_left Z.add l 0%Z.

Definition _count_quantifiable_metrics (txt : text) : Z :=
  let count :=
    sumZ (map (fun pattern => count_matches pattern txt ignorecase)
              metric_patterns) in
  Z.min count 50.

Definition bullet_chars : list N :=
  [8226; 9679; 9675; 9642; 9656; 9658; 9670; 9671; 9632; 9633]%N.

Definition _count_bullet_points (txt : text) : Z :=
  let count := sumZ (map (fun char => Z.of_nat (count [char] txt)) bullet_chars) in
  let lines := split_on newline txt in
  (count + Z.of_nat (length (List.filter
     (fun line => let stripped := strip line in
                  startswith (str "-") stripped || startswith (str "*") stripped)
     lines)))%Z.

(** [\b[\w.#+]+\b] *)
Definition term_pattern : regex :=
  bounded [plus (Chr (fun c => is_word c || is_chr ".#+" c))].

Definition _count_technical_terms (txt : text) : Z :=
  let words : gset text := list_to_set (findall term_pattern txt no_flags) in
  Z.of_nat (size (filter
    (fun word => word ∈ TECH_SKILLS ∨ remove_char 46 word ∈ TECH_SKILLS)
    words)).

(** *** Experience *)

Definition years_unit : regex := alt [plural "year"; seq [lit "yr"; opt (lit "s")]].

(** The three phrasings of a number of years; the second has two groups,
    and [re.findall] yields a tuple for it. *)
Definition years_patterns : list regex :=
  [ seq [Group 1 (plus d); opt (lit "+"); star s; years_unit; star s;
         opt (lit "of"); star s; opt (alt [lit "experience"; lit "exp"])];
    seq [Group 1 (plus d); star s; lit "-"; star s; Group 2 (plus d); star s;
         years_unit];
    seq [lit "over"; star s; Group 1 (plus d); star s; years_unit] ].

(** What the loop reads of a match of [findall]: the last group of a
    tuple, else the one group. *)
Definition last_group (m : mtch) : text :=
  match m_groups m with
  | (_, g) :: _ => g
  | [] => m_text m
  end.

(** [(20\d{2})\s*[-–]\s*(20\d{2}|present|current)] *)
Definition date_range : regex :=
  seq [Group 1 (seq [lit "20"; times 2 2 d]); star s; Chr is_dash; star s;
       Group 2 (alt [seq [lit "20"; times 2 2 d]; lit "present"; lit "current"])].

(** [try: years.append(...)  except: pass] *)
Definition try_append (years : list Z) (item : result Z) : list Z :=
  match try_except (n ← item; mret (app years [n])) (mret years) with
  | Ok l => l
  | Raise _ => years
  end.

Definition _extract_years_experience (txt : text) : result Z :=
  let years :=
    fold_left (fun years pattern =>
      fold_left (fun years m => try_append years (int (last_group m)))
                (finditer pattern txt ignorecase) years)
      years_patterns [] in
  let date_ranges := finditer date_range txt ignorecase in
  let years :=
    fold_left (fun years m =>
      let start := group 1 m in
      let finish := group 2 m in
      try_append years
        (start_year ← int start;
         end_year ← (if existsb (fun p => bool_decide (lower finish = str p))
                                ["present"; "current"]
                     then mret 2025%Z else int finish);
         mret (end_year - start_year)%Z))
      date_ranges years in
  match years with
  | [] => mret 0%Z
  | _ => max_list years
  end.

(** [(?:at|@)\s+[A-Z][a-zA-Z]+] *)
Definition at_company : regex :=
  seq [alt [lit "at"; lit "@"]; plus s; Chr is_upper; plus (Chr is_alpha)].

Definition job_indicators : list regex := [date_range; at_company].

Definition _count_jobs (txt : text) : Z :=
  let count :=
    sumZ (map (fun pattern => count_matches pattern txt ignorecase)
              job_indicators) in
  let title_matches :=
    Z.of_nat (size (filter (fun title => contains title txt = true) JOB_TITLES)) in
  Z.max (Z.max count (title_matches / 2)) 1.

Definition job_title_patterns : list regex :=
  [ seq [alt [lit "senior"; lit "junior"; lit "lead"; lit "principal"; lit "staff"];
         plus s; plus w; plus s;
         alt [lit "engineer"; lit "developer"; lit "manager"]];
    seq [alt [lit "software"; lit "data"; lit "product"; lit "project";
              lit "engineering"];
         plus s;
         alt [lit "engineer"; lit "developer"; lit "manager"; lit "analyst"]] ].

Definition _has_job_titles (txt : text) : bool :=
  if existsb (fun pattern => found pattern txt ignorecase) job_title_patterns
  then true
  else bool_decide (set_Exists (fun title => contains title txt = true) JOB_TITLES).

(** *** Education *)

Definition doctorate_tier : list regex :=
  [ bounded [lit "ph"; dot_opt; lit "d"];
    bounded [lit "doctorate"];
    bounded [lit "doctoral"] ].

Definition masters_tier : list regex :=
  [ bounded [lit "master"; opt (lit "'"); opt (lit "s")];
    bounded [lit "m"; dot_opt; lit "s"; dot_opt];
    bounded [lit "m"; dot_opt; lit "a"; dot_opt];
    bounded [lit "mba"];
    bounded [lit "m"; dot_opt; lit "eng"] ].

Definition bachelors_tier : list regex :=
  [ bounded [lit "bachelor"; opt (lit "'"); opt (lit "s")];
    bounded [lit "b"; dot_opt; lit "s"; dot_opt];
    bounded [lit "b"; dot_opt; lit "a"; dot_opt];
    bounded [lit "b"; dot_opt; lit "eng"];
    bounded [lit "undergraduate"] ].

Definition associate_tier : list regex :=
  [ bounded [lit "associate"];
    bounded [lit "diploma"];
    bounded [lit "a"; dot_opt; lit "s"; dot_opt];
    bounded [lit "a"; dot_opt; lit "a"; dot_opt] ].

Definition high_school_tier : list regex :=
  [ bounded [lit "high school"];
    bounded [lit "ged"];
    bounded [lit "secondary"] ].

(** The ladder of degree patterns, highest level first. *)
Definition degree_patterns : list (Z * list regex) :=
  [ (5%Z, doctorate_tier);
    (4%Z, masters_tier);
    (3%Z, bachelors_tier);
    (2%Z, associate_tier);
    (1%Z, high_school_tier) ].

(** Whether a tier has a pattern that matches: the inner loop. *)
Definition tier_matches (patterns : list regex) (txt : text) : bool :=
  existsb (fun pattern => found pattern txt ignorecase) patterns.

(** The outer loop over the tiers, with its early [return level]. *)
Fixpoint first_matching_level (tiers : list (Z * list regex)) (txt : text) : Z :=
  match tiers with
  | [] => 0%Z
  | (level, patterns) :: rest =>
      if tier_matches patterns txt then level
      else first_matching_level rest txt
  end.

Definition _get_degree_level (txt : text) : Z :=
  first_matching_level degree_patterns txt.

Definition gpa_patterns : list regex :=
  [ bounded [lit "gpa"];
    seq [lit "grade"; star s; lit "point"; star s; lit "average"];
    seq [d; lit "."; plus d; star s; lit "/"; star s; lit "4.0"];
    seq [one_of "34"; lit "."; times 1 2 d; star s; lit "gpa"] ].

Definition _has_gpa (txt : text) : bool :=
  existsb (fun pattern => found pattern txt ignorecase) gpa_patterns.

(** *** Skills *)

(** [(?:skills?|technologies|tools|competenc).*?(?=\n\n|\n[A-Z]|\Z)] *)
Definition skills_section_pattern : regex :=
  seq [alt [plural "skill"; lit "technologies"; lit "tools"; lit "competenc"];
       lazy_star AnyChar;
       Ahead true (alt [lit_text [newline; newline];
                        seq [cp newline; Chr is_upper];
                        EndStr])].

(** A bullet or a dash, then a word. *)
Definition list_item : regex :=
  seq [Chr (fun c => existsb (N.eqb c) [8226; 9679; 9675; 9642; 45]%N);
       star s; plus w].

Definition _count_skills (txt : text) : Z :=
  let tech_count := _count_technical_terms txt in
  let tech_count :=
    match search skills_section_pattern txt dotall_ignorecase with
    | Some skills_section =>
        let section_text := m_text skills_section in
        let comma_count := (Z.of_nat (count (str ",") section_text) + 1)%Z in
        let list_items := count_matches list_item section_text no_flags in
        Z.max (Z.max tech_count comma_count) list_items
    | None => tech_count
    end in
  Z.min tech_count 50.

(** [\bc\b(?!\+\+|#)] *)
Definition bare_c : regex :=
  seq [WordB; lit "c"; WordB; Ahead false (alt [lit "++"; lit "#"])].

Definition _count_programming_languages (txt : text) : Z :=
  let text_lower := lower txt in
  let count :=
    Z.of_nat (size (filter
      (fun lang => found (bounded [lit_text lang]) text_lower no_flags = true)
      languages)) in
  if found bare_c text_lower no_flags then (count + 1)%Z else count.

(** *** Formatting *)

Definition _check_length (word_count : Z) : bool :=
  (250 <=? word_count)%Z && (word_count <=? 900)%Z.

Definition year_range_format : regex :=
  bounded [times 4 4 d; star s; Chr is_dash; star s;
           alt [times 4 4 d; lit "present"; lit "current"]].

Definition month_year_format : regex :=
  bounded [alt [lit "jan"; lit "feb"; lit "mar"; lit "apr"; lit "may";
                lit "jun"; lit "jul"; lit "aug"; lit "sep"; lit "oct";
                lit "nov"; lit "dec"];
           star w; plus s; times 4 4 d].

Definition b2z (b : bool) : Z := if b then 1%Z else 0%Z.

Definition _check_consistent_formatting (txt : text) : bool :=
  let date_formats :=
    (count_matches year_range_format txt ignorecase,
     count_matches month_year_format txt ignorecase) in
  let bullet_types :=
    sumZ [ b2z (Nat.ltb 2 (count [8226%N] txt));
           b2z (Nat.ltb 2 (count [9679%N] txt));
           b2z (Nat.ltb 5 (count (str "-") txt));
           b2z (Nat.ltb 2 (count (str "*") txt)) ] in
  (2 <=? Z.max (fst date_formats) (snd date_formats))%Z
  && (bullet_types <=? 2)%Z.

(** *** Keyword match *)

(** The vocabulary terms that occur in a text as substrings. *)
Definition tech_terms_in (txt : text) : gset text :=
  filter (fun term => contains term txt = true) TECH_SKILLS.

(** [\b[a-z]{n,}\b] *)
Definition keyword_pattern (n : nat) : regex :=
  bounded [at_least n (Chr is_lower)].

Definition jd_tech (jd_lower : text) : gset text := tech_terms_in jd_lower.

Definition jd_words (jd_lower : text) : gset text :=
  list_to_set (findall (keyword_pattern 4) jd_lower no_flags) ∖ filler_words.

Definition important_keywords (jd_lower : text) : gset text :=
  jd_tech jd_lower ∪ jd_words jd_lower.

Definition resume_words (resume_text : text) : gset text :=
  list_to_set (findall (keyword_pattern 3) resume_text no_flags).

Definition resume_tech (resume_text : text) : gset text :=
  tech_terms_in resume_text.

Definition all_resume_terms (resume_text : text) : gset text :=
  resume_words resume_text ∪ resume_tech resume_text.

Definition matches (resume_text jd_lower : text) : gset text :=
  important_keywords jd_lower ∩ all_resume_terms resume_text.

Definition tech_matches (resume_text jd_lower : text) : gset text :=
  jd_tech jd_lower ∩ resume_tech resume_text.

Definition total_important (jd_lower : text) : Z :=
  (Z.of_nat (size (important_keywords jd_lower))
   + Z.of_nat (size (jd_tech jd_lower)))%Z.

Definition total_matches (resume_text jd_lower : text) : Z :=
  let tech_weight := (Z.of_nat (size (tech_matches resume_text jd_lower)) * 2)%Z in
  (Z.of_nat (size (matches resume_text jd_lower)) + tech_weight)%Z.

(** A job description counts as given when it is neither [None] nor the
    empty string: the source tests [not job_description]. *)
Definition given (job_description : option text) : option text :=
  match job_description with
  | Some (c :: jd) => Some (c :: jd)
  | _ => None
  end.

Definition _calculate_keyword_match (resume_text : text)
    (job_description : option text) : result Q :=
  match given job_description with
  | None => mret 50%Q
  | Some job_description =>
      let jd_lower := lower job_description in
      if Nat.eqb (size (important_keywords jd_lower)) 0 then mret 50%Q
      else if (total_important jd_lower =? 0)%Z then mret 50%Q
      else
        ratio ← div (inject_Z (total_matches resume_text jd_lower))
                    (inject_Z (total_important jd_lower));
        let match_score := (ratio * 100)%Q in
        mret (Qmax 10 (Qmin 95 match_score))
  end.

(** *** The feature vector *)

Section Extract.

(** [textstat.flesch_reading_ease], a library call that may raise. *)
Variable flesch_reading_ease : text → result Q.

Definition _get_readability_score (txt : text) : result Q :=
  try_except
    (score ← flesch_reading_ease txt;
     mret (Qmax 20 (Qmin 100 score)))
    (mret 60%Q).

Definition extract_features (resume_text : text)
    (job_description : option text) : result (gmap string value) :=
  let txt := lower resume_text in
  let original_text := resume_text in
  let word_count := _count_words txt in
  let sentence_count := _count_sentences txt in
  let char_count := Z.of_nat (length resume_text) in
  chars_per_word ← div (inject_Z char_count) (inject_Z (Z.max word_count 1));
  avg_word_length ← div chars_per_word 1.2%Q;
  avg_sentence_length ←
    div (inject_Z word_count) (inject_Z (Z.max sentence_count 1));
  years_of_experience ← _extract_years_experience txt;
  readability_score ← _get_readability_score original_text;
  keyword_match_score ← _calculate_keyword_match txt job_description;
  mret (list_to_map
    [ ("total_words", VInt word_count);
      ("total_sentences", VInt sentence_count);
      ("total_characters", VInt char_count);
      ("avg_word_length", VFloat (round avg_word_length 2));
      ("avg_sentence_length", VFloat (round avg_sentence_length 2));
      ("total_sections", VInt (_count_sections txt));
      ("has_summary", VBool (_has_section txt "summary"));
      ("has_experience", VBool (_has_section txt "experience"));
      ("has_education", VBool (_has_section txt "education"));
      ("has_skills", VBool (_has_section txt "skills"));
      ("has_projects", VBool (_has_section txt "projects"));
      ("has_certifications", VBool (_has_section txt "certifications"));
      ("has_email", VBool (_has_email txt));
      ("has_phone", VBool (_has_phone txt));
      ("has_linkedin", VBool (_has_linkedin txt));
      ("has_github", VBool (_has_github txt));
      ("action_verb_count", VInt (_count_action_verbs txt));
      ("quantifiable_metrics", VInt (_count_quantifiable_metrics txt));
      ("bullet_point_count", VInt (_count_bullet_points original_text));
      ("technical_terms_count", VInt (_count_technical_terms txt));
      ("years_of_experience", VInt years_of_experience);
      ("number_of_jobs", VInt (_count_jobs txt));
      ("has_job_titles", VBool (_has_job_titles txt));
      ("degree_level", VInt (_get_degree_level txt));
      ("has_gpa", VBool (_has_gpa txt));
      ("total_skills_mentioned", VInt (_count_skills txt));
      ("programming_languages", VInt (_count_programming_languages txt));
      ("readability_score", VFloat readability_score);
      ("appropriate_length", VBool (_check_length word_count));
      ("consistent_formatting", VBool (_check_consistent_formatting original_text));
      ("keyword_match_score", VFloat keyword_match_score) ]).

End Extract.

End FeatureExtractor.

(** ** The scoring service ([services/ml_service.py]) *)

Module MLService.
Import Py.

Local Open Scope string_scope.
Local Open Scope list_scope.
Local Open Scope Q_scope.

(** A feature dictionary. *)
Abbreviation features := (gmap string value).

(** [features.get(key, default)] where a number is read. *)
Definition getn (fs : features) (key : string) (default : Z) : Q :=
  num (get fs key (VInt default)).

(** [features.get(key, False)] where a condition is read. *)
Definition getb (fs : features) (key : string) : bool :=
  truthy (get fs key (VBool false)).

Definition feature_order : list string :=
  [ "total_words"; "total_sentences"; "total_characters";
    "avg_word_length"; "avg_sentence_length"; "total_sections";
    "has_summary"; "has_experience"; "has_education"; "has_skills";
    "has_projects"; "has_certifications"; "has_email"; "has_phone";
    "has_linkedin"; "has_github"; "action_verb_count";
    "quantifiable_metrics"; "bullet_point_count"; "technical_terms_count";
    "years_of_experience"; "number_of_jobs"; "has_job_titles";
    "degree_level"; "has_gpa"; "total_skills_mentioned";
    "programming_languages"; "readability_score"; "appropriate_length";
    "consistent_formatting"; "keyword_match_score" ].

(** [float(value)] *)
Definition float (v : value) : Q := num v.

Definition _features_to_array (fs : features) : list Q :=
  map (fun feature_name =>
         let value := get fs feature_name (VInt 0) in
         let value :=
           match value with
           | VBool b => VInt (if b then 1 else 0)
           | _ => value
           end in
         float value)
      feature_order.

(** *** Breakdown *)

Record breakdown := {
  keywords : Q; experience : Q; formatting : Q; skills : Q; structure : Q }.

Definition formatting_points (fs : features) : Q :=
  (if getb fs "appropriate_length" then 50 else 20)
  + (if getb fs "consistent_formatting" then 30 else 10)
  + (if Qltb 5 (getn fs "bullet_point_count" 0) then 20 else 10).

Definition _generate_breakdown (fs : features) (overall_score : Q) : breakdown :=
  let keyword_score := Qmin 100 (getn fs "keyword_match_score" 50 * 1.2) in
  let experience_score :=
    Qmin 100 (getn fs "action_verb_count" 0 * 4
              + getn fs "quantifiable_metrics" 0 * 5
              + Qmin (getn fs "years_of_experience" 0 * 10) 50) in
  let formatting_score := Qmin 100 (formatting_points fs) in
  let skills_score :=
    Qmin 100 (getn fs "total_skills_mentioned" 0 * 7
              + getn fs "programming_languages" 0 * 10) in
  let structure_score :=
    Qmin 100 (getn fs "total_sections" 0 * 15
              + (if getb fs "has_summary" then 10 else 0)
              + (if getb fs "has_experience" then 20 else 0)
              + (if getb fs "has_education" then 15 else 0)
              + (if getb fs "has_skills" then 15 else 0)) in
  {| keywords := round keyword_score 1;
     experience := round experience_score 1;
     formatting := round formatting_score 1;
     skills := round skills_score 1;
     structure := round structure_score 1 |}.

(** *** Suggestions *)

Inductive priority : Set := high | medium | low.

Record suggestion := {
  category : string; prio : priority; message : string }.

#[global] Instance priority_eq_dec : EqDecision priority.
Proof. solve_decision. Defined.

#[global] Instance suggestion_eq_dec : EqDecision suggestion.
Proof. solve_decision. Defined.

(** [priority_order] *)
Definition priority_order (p : priority) : Z :=
  match p with high => 0 | medium => 1 | low => 2 end%Z.

(** [list.sort(key=...)]: a stable sort, as an insertion sort that puts an
    element before the first one with a key that is not smaller. *)
Fixpoint insert_by {A} (key : A → Z) (x : A) (l : list A) : list A :=
  match l with
  | [] => [x]
  | y :: l' => if (key y <? key x)%Z then y :: insert_by key x l' else x :: l
  end.

Definition sort_by {A} (key : A → Z) (l : list A) : list A :=
  fold_right (insert_by key) [] l.

(** The order a sort by [key] establishes. *)
Definition key_le {A} (key : A → Z) (x y : A) : Prop := (key x ≤ key y)%Z.

(** [if cond: suggestions.append(item)] *)
Definition when (cond : bool) (item : suggestion) : list suggestion :=
  if cond then [item] else [].

Definition too_brief : suggestion :=
  {| category := "formatting"; prio := medium;
     message := "Your resume is too brief. Add more details about your experience and achievements" |}.

Definition too_long : suggestion :=
  {| category := "formatting"; prio := medium;
     message := "Your resume is too long. Focus on the most relevant and recent experience" |}.

Definition length_rule (fs : features) : list suggestion :=
  if negb (getb fs "appropriate_length") then
    let word_count := getn fs "total_words" 0 in
    if Qltb word_count 300 then [too_brief]
    else if Qltb 1000 word_count then [too_long]
    else []
  else [].

Definition sections_rule (fs : features) : list suggestion :=
  if Qltb (getn fs "total_sections" 0) 4 then
    let missing :=
      (if negb (getb fs "has_summary") then ["professional summary"] else [])
      ++ (if negb (getb fs "has_skills") then ["skills section"] else []) in
    match missing with
    | [] => []
    | _ => [ {| category := "structure"; prio := medium;
                message := "Add missing sections: " +:+ PyStr.join ", " missing |} ]
    end
  else [].

(** The rules in the order the source evaluates them: the list before it
    is sorted. *)
Definition rules (fs : features) : list suggestion :=
  when (Qltb (getn fs "keyword_match_score" 50) 60)
    {| category := "keywords"; prio := high;
       message := "Add more relevant keywords from the job description to your resume" |}
  ++ when (Qltb (getn fs "action_verb_count" 0) 10)
    {| category := "experience"; prio := high;
       message := "Use more action verbs (achieved, managed, led, developed, etc.) to describe your accomplishments" |}
  ++ when (Qltb (getn fs "quantifiable_metrics" 0) 5)
    {| category := "experience"; prio := high;
       message := "Add quantifiable achievements (increased by 30%, managed $2M budget, led team of 10, etc.)" |}
  ++ length_rule fs
  ++ sections_rule fs
  ++ when (Qltb (getn fs "total_skills_mentioned" 0) 8)
    {| category := "skills"; prio := medium;
       message := "List more relevant technical and soft skills (aim for 10-15 skills)" |}
  ++ when (negb (getb fs "has_email") || negb (getb fs "has_phone"))
    {| category := "structure"; prio := high;
       message := "Ensure your contact information (email and phone) is clearly visible" |}
  ++ when (Qltb (getn fs "bullet_point_count" 0) 5)
    {| category := "formatting"; prio := low;
       message := "Use bullet points to make your experience more readable" |}.

(** The key of the sort: [lambda x: priority_order[x['priority']]]. *)
Definition sort_key (x : suggestion) : Z := priority_order (prio x).

Definition _generate_suggestions (fs : features) (score : Q) : list suggestion :=
  let suggestions := rules fs in
  let suggestions := sort_by sort_key suggestions in
  take 8 suggestions.

(** *** The rule-based fallback *)

Record prediction := {
  overall_score : Q;
  confidence : Q;
  breakdown_of : breakdown;
  suggestions : list suggestion;
  model_version : string }.

(** The local [score] of [_fallback_prediction] once it is clamped, before
    it is rounded for the result. *)
Definition fallback_score (fs : features) : Q :=
  let score := 0 in
  let score := score + getn fs "keyword_match_score" 50 * 0.3 in
  let exp_score :=
    Qmin 100 (getn fs "action_verb_count" 0 * 3
              + getn fs "quantifiable_metrics" 0 * 4
              + Qmin (getn fs "years_of_experience" 0 * 8) 40) in
  let score := score + exp_score * 0.25 in
  let struct_score :=
    getn fs "total_sections" 0 * 12
    + (if getb fs "has_summary" then 10 else 0)
    + (if getb fs "has_experience" then 20 else 0) in
  let score := score + Qmin 100 struct_score * 0.2 in
  let skills_score := Qmin 100 (getn fs "total_skills_mentioned" 0 * 8) in
  let score := score + skills_score * 0.15 in
  let format_score := formatting_points fs in
  let score := score + Qmin 100 format_score * 0.1 in
  Qmax 0 (Qmin 100 score).

Definition _fallback_prediction (fs : features) : prediction :=
  let score := fallback_score fs in
  {| overall_score := round score 1;
     confidence := 0.7;
     breakdown_of := _generate_breakdown fs score;
     suggestions := _generate_suggestions fs score;
     model_version := "fallback-1.0.0" |}.

(** *** The model path *)

(** A batch of feature rows, as the scaler and the model take it. *)
Abbreviation batch := (list (list Q)).

(** A loaded model: [predict], and [predict_proba] when it has one.  Both
    are calls into a library and may raise. *)
Record model := {
  predict : batch → result (list Q);
  predict_proba : option (batch → result (list (list Q))) }.

(** The attributes of the service object. *)
Record service := {
  self_model : option model;
  self_scaler : option (batch → result batch);
  self_model_loaded : bool;
  self_model_version : option string }.

(** [l[0]] *)
Definition first {A} (l : list A) : result A :=
  match l with
  | x :: _ => Ok x
  | [] => Raise IndexError
  end.

(** [max(l)] on floats *)
Definition max_of (l : list Q) : result Q :=
  match l with
  | [] => Raise ValueError
  | x :: l' => Ok (fold_left Qmax l' x)
  end.

(** [self.model], an attribute error when it is [None]. *)
Definition the_model (self : service) : result model :=
  match self_model self with
  | Some m => Ok m
  | None => Raise AttributeError
  end.

Definition _get_confidence (self : service) (feature_array : batch) : result Q :=
  try_except
    (match self_model self with
     | Some m =>
         match predict_proba m with
         | Some proba_of =>
             rows ← proba_of feature_array;
             proba ← first rows;
             max_of proba
         | None => mret 0.85
         end
     | None => mret 0.85
     end)
    (mret 0.85).

(** The body of the [try] of [predict_ats_score]. *)
Definition model_path (self : service) (fs : features) : result prediction :=
  feature_array ← mret (_features_to_array fs);
  feature_array ←
    match self_scaler self with
    | Some transform => transform [feature_array]
    | None => mret [feature_array]
    end;
  m ← the_model self;
  scores ← predict m feature_array;
  score ← first scores;
  let score := Qmax 0 (Qmin 100 (float (VFloat score))) in
  confidence ← _get_confidence self feature_array;
  let breakdown := _generate_breakdown fs score in
  let suggestions := _generate_suggestions fs score in
  mret {| overall_score := round score 1;
          confidence := confidence;
          breakdown_of := breakdown;
          suggestions := suggestions;
          model_version :=
            match self_model_version self with
            | Some v => if String.eqb v "" then "2.0.0" else v
            | None => "2.0.0"
            end |}.

Definition predict_ats_score (self : service) (fs : features) : result prediction :=
  if negb (self_model_loaded self) then mret (_fallback_prediction fs)
  else try_except (model_path self fs) (mret (_fallback_prediction fs)).

End MLService.

(** ** The reference scorer ([training/generate_synthetic_data_v2.py]) *)

Module IndustryGradeATSGenerator.
Import Py.
Local Open Scope Q_scope.

(** The value of [exp_base] before the job hopping penalty: the curve in
    the years, the bonus for the number of positions and the bonus for
    the metrics. *)
Definition exp_base_unpenalized (years : Q) (num_jobs metrics : Z) : Q :=
  let exp_base :=
    if Qltb years 1 then years * 3
    else if Qltb years 3 then 3 + (years - 1) * 3
    else if Qltb years 7 then 9 + (years - 3) * 2
    else if Qltb years 12 then 17 + (years - 7) * 1
    else 22 + Qmin 3 ((years - 12) * 0.3) in
  let exp_base :=
    if ((2 <=? num_jobs) && (num_jobs <=? 5))%Z
    then exp_base + Qmin 3 (inject_Z num_jobs * 0.8)
    else if (5 <? num_jobs)%Z then exp_base + 3
    else exp_base in
  exp_base + Qmin 4 (inject_Z metrics * 0.4).

Definition _nonlinear_experience_score (years : Q) (num_jobs metrics : Z)
    (job_hopping : bool) : Q :=
  let exp_base := exp_base_unpenalized years num_jobs metrics in
  let exp_base := if job_hopping then exp_base * 0.75 else exp_base in
  Qmin 25 exp_base.

(** The flag [_calculate_ats_score] computes:
    [years > 3 and number_of_jobs > years / 1.5]. *)
Definition job_hopping (years : Q) (num_jobs : Z) : bool :=
  Qltb 3 years && Qltb (years / 1.5) (inject_Z num_jobs).

(** The experience term of [_calculate_ats_score]: [exp_score]. *)
Definition exp_score (years : Q) (num_jobs metrics : Z) : Q :=
  _nonlinear_experience_score years num_jobs metrics
    (job_hopping years num_jobs).

End IndustryGradeATSGenerator.

(** ** The specification's reading of the two scorers

    What the specification says in words, written down to be compared with
    the definitions translated from the source. *)

Module Spec.
Import Py MLService FeatureExtractor.
Local Open Scope string_scope.
Local Open Scope Q_scope.

(** Clamp to the interval from [lo] to [hi]. *)
Definition clamp (lo hi x : Q) : Q := Qmax lo (Qmin hi x).

(** The weighted sum of the rule-based scorer: keywords 30%, experience
    25%, structure 20%, skills 15%, formatting 10%, each term capped at
    100 before its weight is applied. *)
Definition weighted_sum (fs : features) : Q :=
  0.30 * getn fs "keyword_match_score" 50
  + 0.25 * Qmin 100 (getn fs "action_verb_count" 0 * 3
                     + getn fs "quantifiable_metrics" 0 * 4
                     + Qmin (getn fs "years_of_experience" 0 * 8) 40)
  + 0.20 * Qmin 100 (getn fs "total_sections" 0 * 12
                     + (if getb fs "has_summary" then 10 else 0)
                     + (if getb fs "has_experience" then 20 else 0))
  + 0.15 * Qmin 100 (getn fs "total_skills_mentioned" 0 * 8)
  + 0.10 * Qmin 100 ((if getb fs "appropriate_length" then 50 else 20)
                     + (if getb fs "consistent_formatting" then 30 else 10)
                     + (if Qltb 5 (getn fs "bullet_point_count" 0)
                        then 20 else 10)).

(** The match ratio: keyword matches plus doubled technical matches, over
    the important keywords plus the technical terms of the job
    description. *)
Definition match_ratio (resume_text jd_lower : text) : Q :=
  inject_Z (Z.of_nat (size (matches resume_text jd_lower))
            + 2 * Z.of_nat (size (tech_matches resume_text jd_lower)))
  / inject_Z (Z.of_nat (size (important_keywords jd_lower))
              + Z.of_nat (size (jd_tech jd_lower))).

(** The keyword match: 50 without a job description or without
    important keywords, else the ratio times 100, clamped to 10..95. *)
Definition keyword_match (resume_text : text) (job_description : option text) : Q :=
  match job_description with
  | None => 50
  | Some jd =>
      if decide (important_keywords (PyStr.lower jd) = ∅) then 50
      else clamp 10 95 (match_ratio resume_text (PyStr.lower jd) * 100)
  end.

(** One entry of the serialized feature vector: 0.0 for a missing field,
    1.0 or 0.0 for a boolean, the number itself otherwise. *)
Definition serialized (fs : features) (name : string) : Q :=
  match fs !! name with
  | None => 0
  | Some (VBool true) => 1
  | Some (VBool false) => 0
  | Some (VInt n) => inject_Z n
  | Some (VFloat q) => q
  end.

End Spec.

(** ** Services used as examples *)

Module Scenarios.
Import Py MLService.
Local Open Scope Q_scope.

(** A service with a scaler that raises. *)
Definition failing_scaler : service :=
  {| self_model := Some {| predict := λ _, Ok [80]; predict_proba := None |};
     self_scaler := Some (λ _, Raise LibraryError);
     self_model_loaded := true;
     self_model_version := Some "2.0"%string |}.

(** A service with a model that returns no score. *)
Definition empty_prediction : service :=
  {| self_model := Some {| predict := λ _, Ok []; predict_proba := None |};
     self_scaler := None;
     self_model_loaded := true;
     self_model_version := None |}.

(** A service marked as loaded that has no model. *)
Definition missing_model : service :=
  {| self_model := None; self_scaler := None;
     self_model_loaded := true; self_model_version := None |}.

(** The service before any model is loaded. *)
Definition not_loaded : service :=
  {| self_model := None; self_scaler := None;
     self_model_loaded := false; self_model_version := None |}.

(** A readability library that always raises. *)
Definition unavailable : text → result Q := λ _, Raise LibraryError.

(** A short resume with contact details and two degrees. *)
Definition resume_of_jane : text :=
  PyStr.str "Jane Roe
jane@example.com (555) 123-4567

Experience
Led a team of 5 engineers at Acme, 2019 - 2023.

Education
Bachelor's and Master's in Physics".

(** The number held by a field of an extracted vector, in lowest terms. *)
Definition field (extracted : result (gmap string value)) (key : string)
    : option Q :=
  match extracted with
  | Ok fv => (λ v, Qred (num v)) <$> fv !! key
  | Raise _ => None
  end.

End Scenarios.

(** ** The label of the reference scorer

    [_calculate_ats_score] of [training/generate_synthetic_data_v2.py]
    and what it calls.  The scorer reads its dictionary with
    [features[key]], which raises on a missing key: the functions return
    an [option], [None] for the KeyError.  The draw of [random.gauss] is
    an argument. *)

Module ReferenceScorer.
Import Py MLService.
Local Open Scope string_scope.
Local Open Scope Q_scope.

Definition _nonlinear_keyword_score (match_pct : Q) : Q :=
  if Qltb match_pct 30 then match_pct * 0.15
  else if Qltb match_pct 50 then 4.5 + (match_pct - 30) * 0.25
  else if Qltb match_pct 70 then 9.5 + (match_pct - 50) * 0.4
  else if Qltb match_pct 85 then 17.5 + (match_pct - 70) * 0.5
  else 25 + (match_pct - 85) * 0.67.

(** [_nonlinear_experience_score] for a number of positions and of metrics
    that are any number, as the values of a dictionary are. *)
Definition _nonlinear_experience_score (years num_jobs metrics : Q)
    (job_hopping : bool) : Q :=
  let exp_base :=
    if Qltb years 1 then years * 3
    else if Qltb years 3 then 3 + (years - 1) * 3
    else if Qltb years 7 then 9 + (years - 3) * 2
    else if Qltb years 12 then 17 + (years - 7) * 1
    else 22 + Qmin 3 ((years - 12) * 0.3) in
  let exp_base :=
    if negb (Qltb num_jobs 2) && negb (Qltb 5 num_jobs)
    then exp_base + Qmin 3 (num_jobs * 0.8)
    else if Qltb 5 num_jobs then exp_base + 3
    else exp_base in
  let exp_base := exp_base + Qmin 4 (metrics * 0.4) in
  let exp_base := if job_hopping then exp_base * 0.75 else exp_base in
  Qmin 25 exp_base.

(** [features[key]] read as a number, and as a condition. *)
Definition item (fs : features) (key : string) : option Q := num <$> fs !! key.
Definition flag (fs : features) (key : string) : option bool := truthy <$> fs !! key.

Definition _calculate_penalties (fs : features) : option Q :=
  has_email ← flag fs "has_email";
  has_phone ← flag fs "has_phone";
  has_experience ← flag fs "has_experience";
  has_education ← flag fs "has_education";
  has_skills ← flag fs "has_skills";
  years_of_experience ← item fs "years_of_experience";
  number_of_jobs ← item fs "number_of_jobs";
  consistent_formatting ← flag fs "consistent_formatting";
  total_words ← item fs "total_words";
  has_job_titles ← flag fs "has_job_titles";
  let penalty := 0 in
  let penalty := if negb has_email then penalty + 10 else penalty in
  let penalty := if negb has_phone then penalty + 5 else penalty in
  let penalty := if negb has_experience then penalty + 15 else penalty in
  let penalty := if negb has_education then penalty + 8 else penalty in
  let penalty := if negb has_skills then penalty + 10 else penalty in
  let avg_tenure := years_of_experience / Qmax 1 number_of_jobs in
  let penalty :=
    if Qltb 5 years_of_experience && Qltb 4 avg_tenure
    then penalty + 3 else penalty in
  let penalty := if negb consistent_formatting then penalty + 3 else penalty in
  let penalty :=
    if Qltb total_words 250 then penalty + 5
    else if Qltb 1000 total_words then penalty + 3
    else penalty in
  let penalty := if negb has_job_titles then penalty + 5 else penalty in
  Some penalty.

(** [degree_scores.get(level, 0)] *)
Definition degree_score (level : Q) : Q :=
  if Qeq_bool level 0 then 0
  else if Qeq_bool level 1 then 2
  else if Qeq_bool level 2 then 5
  else if Qeq_bool level 3 then 9
  else if Qeq_bool level 4 then 11
  else if Qeq_bool level 5 then 12
  else 0.

(** The sum of the five positive terms: [raw_score]. *)
Definition raw_score (fs : features) : option Q :=
  keyword_match_score ← item fs "keyword_match_score";
  let keyword_score := _nonlinear_keyword_score keyword_match_score in
  years_of_experience ← item fs "years_of_experience";
  number_of_jobs ← item fs "number_of_jobs";
  quantifiable_metrics ← item fs "quantifiable_metrics";
  let job_hopping :=
    Qltb 3 years_of_experience
    && Qltb (years_of_experience / 1.5) number_of_jobs in
  let exp_score :=
    _nonlinear_experience_score years_of_experience number_of_jobs
      quantifiable_metrics job_hopping in
  total_skills_mentioned ← item fs "total_skills_mentioned";
  programming_languages ← item fs "programming_languages";
  action_verb_count ← item fs "action_verb_count";
  let skills_base := Qmin 10 (total_skills_mentioned * 0.5) in
  let skills_base := skills_base + Qmin 5 (programming_languages * 1.2) in
  let skills_base := skills_base + Qmin 3 (action_verb_count * 0.2) in
  let skills_score := Qmin 18 skills_base in
  degree_level ← item fs "degree_level";
  has_gpa ← flag fs "has_gpa";
  let edu_score := degree_score degree_level in
  let edu_score :=
    if has_gpa && negb (Qltb degree_level 3)
    then Qmin 12 (edu_score + 1) else edu_score in
  has_experience ← flag fs "has_experience";
  has_education ← flag fs "has_education";
  has_skills ← flag fs "has_skills";
  has_email ← flag fs "has_email";
  has_phone ← flag fs "has_phone";
  consistent_formatting ← flag fs "consistent_formatting";
  let format_score := 0 in
  let format_score := format_score + (if has_experience : bool then 2.5 else 0) in
  let format_score := format_score + (if has_education : bool then 2 else 0) in
  let format_score := format_score + (if has_skills : bool then 2.5 else 0) in
  let format_score := format_score + (if has_email : bool then 1 else 0) in
  let format_score := format_score + (if has_phone : bool then 1 else 0) in
  let format_score := format_score + (if consistent_formatting : bool then 1 else 0) in
  let format_score := Qmin 10 format_score in
  Some (keyword_score + exp_score + skills_score + edu_score + format_score).

(** [noise] is the value [random.gauss(0, 2.5)] draws. *)
Definition _calculate_ats_score (fs : features) (noise : Q) : option Q :=
  raw ← raw_score fs;
  penalty ← _calculate_penalties fs;
  let final_score := raw - penalty + noise in
  Some (Qmax 0 (Qmin 100 final_score)).

(** The keys [_calculate_penalties] reads, the keys the positive terms
    read, and the keys of both. *)
Definition penalty_keys : list string :=
  [ "has_email"; "has_phone"; "has_experience"; "has_education";
    "has_skills"; "years_of_experience"; "number_of_jobs";
    "consistent_formatting"; "total_words"; "has_job_titles" ].

Definition raw_keys : list string :=
  [ "keyword_match_score"; "years_of_experience"; "number_of_jobs";
    "quantifiable_metrics"; "total_skills_mentioned";
    "programming_languages"; "action_verb_count"; "degree_level"; "has_gpa";
    "has_experience"; "has_education"; "has_skills"; "has_email";
    "has_phone"; "consistent_formatting" ].

Definition scored_keys : list string :=
  [ "keyword_match_score"; "years_of_experience"; "number_of_jobs";
    "quantifiable_metrics"; "total_skills_mentioned";
    "programming_languages"; "action_verb_count"; "degree_level"; "has_gpa";
    "has_experience"; "has_education"; "has_skills"; "has_email";
    "has_phone"; "consistent_formatting"; "total_words"; "has_job_titles" ].

End ReferenceScorer.

(** ** Loading the model ([MLService.load_model]) *)

Module Loading.
Import PyStr Py MLService.

(** [__init__]; the attribute [feature_names], which is written and
    never read, is left out of [service]. *)
Definition init : service :=
  {| self_model := None; self_scaler := None;
     self_model_loaded := false; self_model_version := None |}.

(** What [pickle.load] returns: a dictionary with the key ['model'] (its
    model, its scaler and its version when it has them), or anything
    else. *)
Inductive pickled : Type :=
| Package (model_of : option model) (scaler_of : option (batch → result batch))
          (version_of : option string)
| Plain (data : option model).

Section LoadModel.

(** The file system and the two libraries: each call may raise.  [Path]
    makes a path of a string, and the three paths below [base_path] are
    given. *)
Variable path : Type.
Variable Path : text → path.
Variables v2_model_path v1_model_path default_scaler_path : path.
Variable path_exists : path → result bool.
Variable pickle_load : path → result pickled.
Variable joblib_load : path → result (option (batch → result batch)).

(** A string argument that is neither [None] nor empty. *)
Definition truthy_str (arg : option text) : option text :=
  match arg with
  | Some (c :: s) => Some (c :: s)
  | _ => None
  end.

(** The model file that is read: a custom path wins, then the v2 model
    when it exists, then the path that was given, then the v1 model.
    The choice is made before the [try]. *)
Definition choose_model_path (model_path : option text) : result path :=
  match truthy_str model_path with
  | Some p =>
      if negb (endswith (str "ats_model.pkl") p) then mret (Path p)
      else
        v2 ← path_exists v2_model_path;
        mret (if v2 : bool then v2_model_path else Path p)
  | None =>
      v2 ← path_exists v2_model_path;
      mret (if v2 : bool then v2_model_path else v1_model_path)
  end.

(** The body of the [try], from the chosen file on: the service when the
    body ends, and the value it returns or the fact that it raised.  An
    exception keeps the attributes assigned before it. *)
Definition load_from (self : service) (model_path : path)
    (scaler_path : option text) : service * result bool :=
  match path_exists model_path with
  | Raise e => (self, Raise e)
  | Ok false => (self, Ok false)
  | Ok true =>
      match pickle_load model_path with
      | Raise e => (self, Raise e)
      | Ok (Package model_of scaler_of version_of) =>
          ({| self_model := model_of;
              self_scaler := scaler_of;
              self_model_loaded := true;
              self_model_version :=
                Some (match version_of with
                      | Some v => v
                      | None => "2.0"%string
                      end) |}, Ok true)
      | Ok (Plain data) =>
          let self :=
            {| self_model := data;
               self_scaler := self_scaler self;
               self_model_loaded := self_model_loaded self;
               self_model_version := Some "1.0"%string |} in
          let scaler_file :=
            match truthy_str scaler_path with
            | Some p => Path p
            | None => default_scaler_path
            end in
          match path_exists scaler_file with
          | Raise e => (self, Raise e)
          | Ok true =>
              match joblib_load scaler_file with
              | Raise e => (self, Raise e)
              | Ok scaler =>
                  ({| self_model := self_model self;
                      self_scaler := scaler;
                      self_model_loaded := true;
                      self_model_version := self_model_version self |},
                   Ok true)
              end
          | Ok false =>
              ({| self_model := self_model self;
                  self_scaler := self_scaler self;
                  self_model_loaded := true;
                  self_model_version := self_model_version self |}, Ok true)
          end
      end
  end.

(** [load_model]: the service after the call and what the call does.  An
    exception in the choice of the file leaves the function; one in the
    [try] is caught, and the function returns False. *)
Definition load_model (self : service) (model_path scaler_path : option text)
    : service * result bool :=
  match choose_model_path model_path with
  | Raise e => (self, Raise e)
  | Ok model_path =>
      let '(self, outcome) := load_from self model_path scaler_path in
      (self, try_except outcome (mret false))
  end.

End LoadModel.

End Loading.

(** ** The text endpoint ([app.py]) *)

Module App.
Import PyStr Py FeatureExtractor MLService.

(** What a route hands back: the dictionary it returns, or the
    [HTTPException] it raises. *)
Inductive response : Type :=
| Returned (result : prediction)
| HTTPException (status_code : Z).

Section Routes.

(** [textstat.flesch_reading_ease] and the global [ml_service]. *)
Variable flesch_reading_ease : text → result Q.
Variable ml_service : service.

(** [POST /api/ats-score-text]: the [HTTPException] raised in the [try] is
    raised again, any other exception becomes a 500. *)
Definition predict_ats_score_from_text (resume_text : text)
    (job_description : option text) : response :=
  if Nat.eqb (length resume_text) 0 || Nat.ltb (length (strip resume_text)) 50
  then HTTPException 400
  else
    match (features ← extract_features flesch_reading_ease resume_text
                         job_description;
           predict_ats_score ml_service features) with
    | Ok result => Returned result
    | Raise _ => HTTPException 500
    end.

End Routes.

End App.

(** ** Two runs of the matcher *)

Module Simulation.
Import PyStr Re.

(** Two characters that differ at most in their case. *)
Definition same_letter (x y : N) : Prop := to_lower x = to_lower y.

(** A continuation that succeeds on a text whenever another one succeeds on
    a text related to it. *)
Definition cont_le (rel : N → N → Prop) (k k' : cont) : Prop :=
  ∀ b a c b' a' c',
    Forall2 rel b b' → Forall2 rel a a' →
    is_Some (k b a c) → is_Some (k' b' a' c').

(** A text of ASCII characters. *)
Definition is_ascii (txt : text) : Prop := Forall (fun c => (c < 128)%N) txt.

End Simulation.

(** ** More inputs *)

Module Inputs.
Import PyStr Py MLService Loading.
Local Open Scope Q_scope.

(** A dictionary without negative numbers. *)
Definition non_negative (fs : features) : Prop :=
  map_Forall (λ _ v, Qle_bool 0 (num v) = true) fs.

(** A service whose model scores every resume 72.34 and whose
    [predict_proba] raises. *)
Definition failing_proba : service :=
  {| self_model :=
       Some {| predict := λ _, Ok [72.34];
               predict_proba := Some (λ _, Raise LibraryError) |};
     self_scaler := None;
     self_model_loaded := true;
     self_model_version := None |}.

(** A model file in the old format next to a scaler file that cannot be
    read. *)
Definition constant_model : model :=
  {| predict := λ _, Ok [80]; predict_proba := None |}.

Definition broken_scaler_load : service * result bool :=
  load_model text (λ p, p) (str "models/ats_model_v2.pkl")
    (str "models/ats_model.pkl") (str "models/scaler.pkl")
    (λ p, Ok (negb (bool_decide (p = str "models/ats_model_v2.pkl"))))
    (λ _, Ok (Plain (Some constant_model)))
    (λ _, Raise LibraryError)
    init None None.

(** A vector with every red flag of the reference scorer. *)
Definition every_red_flag : features :=
  {[ "has_email" := VBool false; "has_phone" := VBool false;
     "has_experience" := VBool false; "has_education" := VBool false;
     "has_skills" := VBool false; "years_of_experience" := VFloat 9;
     "number_of_jobs" := VInt 2; "consistent_formatting" := VBool false;
     "total_words" := VInt 200; "has_job_titles" := VBool false ]}%string.

(** A long resume without an email address and without the three
    sections. *)
Definition missing_sections : features :=
  {[ "has_email" := VBool false; "has_phone" := VBool true;
     "has_experience" := VBool false; "has_education" := VBool false;
     "has_skills" := VInt 0; "years_of_experience" := VFloat 2.5;
     "number_of_jobs" := VInt 2; "consistent_formatting" := VBool true;
     "total_words" := VInt 1200; "has_job_titles" := VBool true ]}%string.

(** The vector of a strong resume. *)
Definition strong_resume : features :=
  {[ "keyword_match_score" := VFloat 82.5; "action_verb_count" := VInt 14;
     "quantifiable_metrics" := VInt 6; "years_of_experience" := VInt 7;
     "total_skills_mentioned" := VInt 12; "programming_languages" := VInt 3;
     "total_sections" := VInt 5; "has_summary" := VBool true;
     "has_experience" := VBool true; "appropriate_length" := VBool true;
     "bullet_point_count" := VInt 9 ]}%string.

End Inputs.

(** * Properties *)

(** ** Rational arithmetic *)

Section Rationals.
Import Py.
Local Open Scope Q_scope.

Lemma Qltb_lt (a b : Q) : Qltb a b = true ↔ a < b.
Proof.
  unfold Qltb. rewrite Qlt_alt. destruct (a ?= b); split; congruence.
Qed.

Lemma Qltb_ge (a b : Q) : Qltb a b = false ↔ b <= a.
Proof.
  unfold Qltb. rewrite Qle_alt, <- (Qcompare_antisym a b).
  destruct (a ?= b); simpl; split; congruence.
Qed.

Lemma round_half_even_comp (x y : Q) :
  x == y → round_half_even x = round_half_even y.
Proof.
  intros H. unfold round_half_even.
  rewrite (Qfloor_comp _ _ H).
  assert (E : x - inject_Z (Qfloor y) == y - inject_Z (Qfloor y))
    by (rewrite H; reflexivity).
  rewrite (Qcompare_comp _ _ E _ _ (Qeq_refl (1 # 2))). reflexivity.
Qed.

Lemma round_comp (x y : Q) (n : nat) : x == y → round x n = round y n.
Proof.
  intros H. unfold round.
  set (scale := inject_Z (10 ^ Z.of_nat n)).
  rewrite (round_half_even_comp (x * scale) (y * scale)); [reflexivity|].
  rewrite H. reflexivity.
Qed.

End Rationals.

(** Case analysis on every [Qmin] and [Qmax] of the goal. *)
Ltac qminmax_cases :=
  repeat match goal with
  | |- context [Qmin ?a ?b] =>
      let x := fresh "m" in
      pose proof (Q.min_spec a b); set (x := Qmin a b) in *; clearbody x
  | H : context [Qmin ?a ?b] |- _ =>
      let x := fresh "m" in
      pose proof (Q.min_spec a b); set (x := Qmin a b) in *; clearbody x
  | |- context [Qmax ?a ?b] =>
      let x := fresh "m" in
      pose proof (Q.max_spec a b); set (x := Qmax a b) in *; clearbody x
  | H : context [Qmax ?a ?b] |- _ =>
      let x := fresh "m" in
      pose proof (Q.max_spec a b); set (x := Qmax a b) in *; clearbody x
  end;
  repeat match goal with
  | H : _ ∨ _ |- _ => destruct H as [[? ?]|[? ?]]
  end.

(** ** The reference scorer: the job hopping penalty *)

Section JobHopping.
Import Py IndustryGradeATSGenerator.
Local Open Scope Q_scope.

Lemma job_hopping_true (years : Q) (num_jobs : Z) :
  job_hopping years num_jobs = true
  ↔ 3 < years ∧ years / 1.5 < inject_Z num_jobs.
Proof.
  unfold job_hopping. rewrite andb_true_iff, !Qltb_lt. reflexivity.
Qed.

(** Six years in five positions against six years in four: the bonus for
    the positions is capped at 3 in both, and neither reaches the cap of
    25. *)
Lemma exp_score_6_5_4 (m : Z) :
  exp_score 6 5 m == 0.75 * exp_score 6 4 m.
Proof.
  unfold exp_score, _nonlinear_experience_score.
  replace (job_hopping 6 5) with true by (vm_compute; reflexivity).
  replace (job_hopping 6 4) with false by (vm_compute; reflexivity).
  unfold exp_base_unpenalized. simpl.
  generalize (inject_Z m * 0.4). intros q. unfold inject_Z.
  qminmax_cases; lra.
Qed.

(** C4, as amended.  With more than 3 years and a number of positions
    above years/1.5 the job hopping flag is set, and the experience term
    is the cap at 25 of 0.75 times the unpenalized sum for the same
    years, positions and metrics, where the term without the flag is the
    cap at 25 of that sum.  In particular 6 years in 5 positions sets the
    flag, 6 years in 4 positions does not, and the term of the first is
    0.75 times the term of the second for the same metrics. *)
Theorem job_hopping_penalty (years : Q) (num_jobs metrics : Z) :
  3 < years → years / 1.5 < inject_Z num_jobs →
  job_hopping years num_jobs = true
  ∧ exp_score years num_jobs metrics
    = Qmin 25 (exp_base_unpenalized years num_jobs metrics * 0.75)
  ∧ _nonlinear_experience_score years num_jobs metrics false
    = Qmin 25 (exp_base_unpenalized years num_jobs metrics)
  ∧ job_hopping 6 5 = true ∧ job_hopping 6 4 = false
  ∧ exp_score 6 5 metrics == 0.75 * exp_score 6 4 metrics.
Proof.
  intros Hy Hj.
  assert (H : job_hopping years num_jobs = true)
    by (apply job_hopping_true; auto).
  split; [exact H|]. unfold exp_score. rewrite H.
  repeat split. apply exp_score_6_5_4.
Qed.

Lemma job_hopping_penalty_witness :
  job_hopping 6 5 = true
  ∧ exp_score 6 5 10 = Qmin 25 (exp_base_unpenalized 6 5 10 * 0.75).
Proof.
  destruct (job_hopping_penalty 6 5 10) as (H1 & H2 & _).
  - reflexivity.
  - reflexivity.
  - split; [exact H1 | exact H2].
Defined.

(** The claim as it was stated fails for 4 years in 3 positions: the flag
    is set, and the term is not 0.75 times the term of any number of
    positions that leaves the flag unset (2, 1 or 0), because the bonus
    for the positions differs. *)
Lemma job_hopping_relative_counterexample :
  job_hopping 4 3 = true
  ∧ job_hopping 4 2 = false ∧ job_hopping 4 1 = false
  ∧ job_hopping 4 0 = false
  ∧ ¬ exp_score 4 3 0 == 0.75 * exp_score 4 2 0
  ∧ ¬ exp_score 4 3 0 == 0.75 * exp_score 4 1 0
  ∧ ¬ exp_score 4 3 0 == 0.75 * exp_score 4 0 0.
Proof.
  repeat split; try reflexivity; intros H; vm_compute in H; discriminate H.
Qed.

End JobHopping.

(** ** The scoring service *)

Section RuleBasedScorer.
Import Py MLService Spec.
Local Open Scope string_scope.
Local Open Scope Q_scope.

Lemma fallback_score_weighted_sum (fs : features) :
  fallback_score fs == clamp 0 100 (weighted_sum fs).
Proof.
  unfold fallback_score, clamp, weighted_sum, formatting_points.
  qminmax_cases; lra.
Qed.


End RuleBasedScorer.

Section Suggestions.
Import Py MLService.

(** *** The stable sort *)

Lemma insert_by_perm {A} (key : A → Z) (x : A) (l : list A) :
  insert_by key x l ≡ₚ x :: l.
Proof.
  induction l as [|y l IH]; simpl; [done|].
  destruct (key y <? key x)%Z; [|done].
  rewrite IH. apply Permutation_swap.
Qed.

Lemma sort_by_perm {A} (key : A → Z) (l : list A) : sort_by key l ≡ₚ l.
Proof.
  induction l as [|x l IH]; simpl; [done|].
  rewrite insert_by_perm. by rewrite IH.
Qed.

Lemma sort_by_length {A} (key : A → Z) (l : list A) :
  length (sort_by key l) = length l.
Proof. by rewrite sort_by_perm. Qed.

Lemma insert_by_sorted {A} (key : A → Z) (x : A) (l : list A) :
  StronglySorted (key_le key) l → StronglySorted (key_le key) (insert_by key x l).
Proof.
  induction 1 as [|y l Hs IH Hy]; simpl.
  - repeat constructor.
  - destruct (Z.ltb_spec (key y) (key x)).
    + constructor; [done|].
      rewrite insert_by_perm. constructor; [unfold key_le; lia | done].
    + constructor; [by constructor|].
      constructor; [unfold key_le; lia|].
      eapply Forall_impl; [exact Hy|]. unfold key_le. intros; lia.
Qed.

Lemma sort_by_sorted {A} (key : A → Z) (l : list A) :
  StronglySorted (key_le key) (sort_by key l).
Proof.
  induction l; simpl; [constructor | by apply insert_by_sorted].
Qed.

(** Stability: the elements of one key keep their order. *)
Lemma insert_by_stable {A} (key : A → Z) (n : Z) (x : A) (l : list A) :
  filter (λ y, key y = n) (insert_by key x l)
  = filter (λ y, key y = n) (x :: l).
Proof.
  induction l as [|y l IH]; simpl; [done|].
  destruct (Z.ltb_spec (key y) (key x)); [|done].
  rewrite !filter_cons in *.
  destruct (decide (key y = n)), (decide (key x = n)); try lia;
    by rewrite IH.
Qed.

Lemma sort_by_stable {A} (key : A → Z) (n : Z) (l : list A) :
  filter (λ y, key y = n) (sort_by key l) = filter (λ y, key y = n) l.
Proof.
  induction l as [|x l IH]; simpl; [done|].
  rewrite insert_by_stable, !filter_cons, IH. done.
Qed.

(** *** The rules *)

Lemma when_length (c : bool) (x : suggestion) : length (when c x) ≤ 1.
Proof. destruct c; simpl; lia. Qed.

Lemma length_rule_length (fs : features) : length (length_rule fs) ≤ 1.
Proof.
  unfold length_rule. repeat case_match; simpl; lia.
Qed.

Lemma sections_rule_length (fs : features) : length (sections_rule fs) ≤ 1.
Proof.
  unfold sections_rule. repeat case_match; simpl; lia.
Qed.

Lemma rules_length (fs : features) : length (rules fs) ≤ 8.
Proof.
  unfold rules. rewrite !length_app.
  pose proof (length_rule_length fs). pose proof (sections_rule_length fs).
  repeat match goal with
  | |- context [length (when ?c ?x)] =>
      pose proof (when_length c x); generalize dependent (length (when c x)); intros
  end. lia.
Qed.

Lemma generate_suggestions_sorted (fs : features) (score : Q) :
  _generate_suggestions fs score = sort_by sort_key (rules fs).
Proof.
  unfold _generate_suggestions. apply take_ge.
  rewrite sort_by_length. apply rules_length.
Qed.

(** C7.  The suggestions are at most 8, sorted by priority rank (high,
    medium, low), with the order of the rules kept within a priority, and
    the cut to 8 is made after the sort. *)
Theorem suggestions_sorted_stable_capped (fs : features) (score : Q) :
  length (_generate_suggestions fs score) ≤ 8
  ∧ StronglySorted (λ x y, (priority_order (prio x) ≤ priority_order (prio y))%Z)
      (_generate_suggestions fs score)
  ∧ (∀ p, filter (λ x, prio x = p) (_generate_suggestions fs score)
          = filter (λ x, prio x = p) (rules fs))
  ∧ _generate_suggestions fs score
    = take 8 (sort_by (λ x, priority_order (prio x)) (rules fs)).
Proof.
  split; [|split; [|split]].
  - unfold _generate_suggestions. rewrite length_take. lia.
  - rewrite generate_suggestions_sorted. apply (sort_by_sorted sort_key).
  - intros p. rewrite generate_suggestions_sorted.
    assert (E : ∀ x, prio x = p ↔ sort_key x = priority_order p).
    { intros x. unfold sort_key.
      destruct (prio x), p; simpl; split; (congruence || lia). }
    rewrite !(list_filter_iff _ _ _ E). apply sort_by_stable.
  - reflexivity.
Qed.
End Suggestions.

Section LengthSuggestion.
Import Py MLService.

Lemma elem_of_generate_suggestions (fs : features) (score : Q) (x : suggestion) :
  x ∈ _generate_suggestions fs score ↔ x ∈ rules fs.
Proof. by rewrite generate_suggestions_sorted, sort_by_perm. Qed.

Lemma elem_of_when (c : bool) (x y : suggestion) :
  y ∈ when c x ↔ c = true ∧ y = x.
Proof.
  destruct c; simpl.
  - rewrite list_elem_of_singleton. tauto.
  - rewrite elem_of_nil. split; [tauto | intros [? _]; discriminate].
Qed.

Lemma elem_of_sections_rule (fs : features) (y : suggestion) :
  y ∈ sections_rule fs → category y = "structure"%string.
Proof.
  unfold sections_rule.
  destruct (Qltb _ _); [|by rewrite elem_of_nil].
  destruct (_ ++ _); [by rewrite elem_of_nil|].
  rewrite list_elem_of_singleton. by intros ->.
Qed.

(** A suggestion of category formatting and medium priority can only come
    from the length rule. *)
Lemma length_suggestion_from_rule (fs : features) (y : suggestion) :
  category y = "formatting"%string → prio y = medium →
  y ∈ rules fs ↔ y ∈ length_rule fs.
Proof.
  intros Hc Hp. unfold rules. rewrite !elem_of_app, !elem_of_when.
  split; [|tauto].
  intros [H|[H|[H|[H|[H|[H|[H|H]]]]]]]; try done;
    try (destruct H as [_ ->]; simpl in *; congruence).
  apply elem_of_sections_rule in H. congruence.
Qed.

(** C3, as amended.  When [appropriate_length] is absent or false and
    [total_words] is outside 300..1000, the suggestions contain the
    medium length suggestion of the direction: too brief below 300, too
    long above 1000. *)
Theorem length_suggestion (fs : features) (score : Q) :
  getb fs "appropriate_length" = false →
  (getn fs "total_words" 0 < 300 ∨ 1000 < getn fs "total_words" 0)%Q →
  let direction :=
    if Qltb (getn fs "total_words" 0) 300 then too_brief else too_long in
  direction ∈ _generate_suggestions fs score
  ∧ category direction = "formatting"%string
  ∧ prio direction = medium.
Proof.
  intros Hlen Hwords direction.
  assert (Hd : category direction = "formatting"%string ∧ prio direction = medium)
    by (unfold direction; by destruct (Qltb _ _)).
  split; [|exact Hd].
  rewrite elem_of_generate_suggestions.
  rewrite length_suggestion_from_rule by apply Hd.
  unfold length_rule, direction. rewrite Hlen. simpl.
  destruct (Qltb (getn fs "total_words" 0) 300) eqn:E.
  - by apply list_elem_of_singleton.
  - apply Qltb_ge in E. destruct Hwords as [H|H]; [lra|].
    apply Qltb_lt in H. rewrite H. by apply list_elem_of_singleton.
Qed.

Lemma length_suggestion_witness :
  too_brief ∈ _generate_suggestions {[ "total_words" := VInt 120 ]} 0
  ∧ too_long ∈ _generate_suggestions {[ "total_words" := VInt 1200 ]} 0.
Proof.
  split.
  - exact (proj1 (length_suggestion {[ "total_words" := VInt 120 ]} 0
                    eq_refl (or_introl eq_refl))).
  - exact (proj1 (length_suggestion {[ "total_words" := VInt 1200 ]} 0
                    eq_refl (or_intror eq_refl))).
Defined.

(** A resume of 280 words: [_check_length] holds, so the extractor sets
    [appropriate_length], and no suggestion on the length is made although
    280 is below 300. *)
Lemma length_suggestion_counterexample :
  let fs : features :=
    {[ "total_words" := VInt 280; "appropriate_length" := VBool true ]} in
  FeatureExtractor._check_length 280 = true
  ∧ (getn fs "total_words" 0 < 300)%Q
  ∧ Forall (λ x, ¬ (category x = "formatting"%string ∧ prio x = medium))
      (_generate_suggestions fs 0).
Proof.
  repeat split. vm_compute.
  repeat constructor; intros [? ?]; discriminate.
Qed.
End LengthSuggestion.

Section FeatureArray.
Import Py MLService Spec.
Local Open Scope Q_scope.


Example features_to_array_sparse :
  _features_to_array
    {[ "has_email" := VBool true; "has_phone" := VBool false;
       "total_words" := VInt 412; "readability_score" := VFloat 61.5 ]}%string
  = [ 412; 0; 0; 0; 0; 0; 0; 0; 0; 0; 0; 0; 1; 0; 0; 0; 0; 0; 0; 0; 0; 0; 0; 0;
      0; 0; 0; 61.5; 0; 0; 0 ].
Proof. vm_compute. reflexivity. Qed.
End FeatureArray.

Section Prediction.
Import Py MLService Scenarios.
Local Open Scope Q_scope.


Example predict_falls_back (fs : features) :
  predict_ats_score failing_scaler fs = predict_ats_score not_loaded fs
  ∧ predict_ats_score empty_prediction fs = predict_ats_score not_loaded fs
  ∧ predict_ats_score missing_model fs = predict_ats_score not_loaded fs
  ∧ predict_ats_score not_loaded fs = Ok (_fallback_prediction fs).
Proof. repeat split. Qed.
End Prediction.

(** ** The degree ladder *)

Section DegreeLevel.
Import PyStr Re Py FeatureExtractor.

Lemma first_matching_level_find (tiers : list (Z * list regex)) (txt : text) :
  first_matching_level tiers txt
  = match find (λ tier, tier_matches (snd tier) txt) tiers with
    | Some tier => fst tier
    | None => 0%Z
    end.
Proof.
  induction tiers as [|[level patterns] tiers IH]; simpl; [done|].
  by destruct (tier_matches patterns txt).
Qed.



End DegreeLevel.

(** ** The regular expression matcher *)

Section Matcher.
Import PyStr Re.

Lemma reaches_here k b a c o : k b a c = Some o → reaches k b a o.
Proof. intros H. by exists [], a, c. Qed.

Lemma reaches_step k x b a o :
  reaches k (x :: b) a o → reaches k b (x :: a) o.
Proof.
  intros (mid & a' & c' & -> & H). exists (x :: mid), a', c'.
  split; [done|]. simpl. by rewrite <- app_assoc.
Qed.

Lemma reaches_trans k1 k2 b a o :
  reaches k1 b a o →
  (∀ b' a' c', k1 b' a' c' = Some o → reaches k2 b' a' o) →
  reaches k2 b a o.
Proof.
  intros (mid & a' & c' & -> & H) Hk.
  destruct (Hk _ _ _ H) as (mid2 & a2 & c2 & -> & H2).
  exists (mid ++ mid2), a2, c2. split; [by rewrite app_assoc|].
  by rewrite rev_app_distr, <- app_assoc.
Qed.

Lemma rep_loop_reaches (step : matcher) greedy lo k :
  (∀ b a c k' o, step b a c k' = Some o → reaches k' b a o) →
  ∀ fuel i b a c o,
    rep_loop step greedy lo k fuel i b a c = Some o → reaches k b a o.
Proof.
  intros Hstep. induction fuel as [|fuel IHf]; intros i b a c o; simpl.
  - destruct (lo <=? i); [apply reaches_here | done].
  - assert (Hmore : ∀ o,
      step b a c (λ b' a' c',
        if length a' <? length a
        then rep_loop step greedy lo k fuel (S i) b' a' c' else None) = Some o
      → reaches k b a o).
    { intros o' H. apply Hstep in H. eapply reaches_trans; [exact H|].
      intros b' a' c'. simpl. destruct (length a' <? length a); [|done].
      apply IHf. }
    assert (Hstop : ∀ o, (if lo <=? i then k b a c else None) = Some o →
                         reaches k b a o).
    { intros o'. destruct (lo <=? i); [apply reaches_here | done]. }
    destruct greedy.
    + destruct (step b a c _) eqn:E.
      * intros [= ->]. by apply Hmore.
      * apply Hstop.
    + destruct (if lo <=? i then k b a c else None) eqn:E.
      * intros [= ->]. by apply Hstop.
      * apply Hmore.
Qed.

Lemma rmatch_reaches fl r : ∀ b a c k o,
  rmatch fl r b a c k = Some o → reaches k b a o.
Proof.
  induction r as [|p| |r1 IH1 r2 IH2|r1 IH1 r2 IH2|greedy lo hi r IH| | |
                  |positive r IH|i r IH]; intros b a c k o; simpl.
  - apply reaches_here.
  - destruct a as [|x a]; [done|]. destruct (chr_ok fl p x); [|done].
    intros H. apply reaches_step. by eapply reaches_here.
  - destruct a as [|x a]; [done|]. destruct (any_ok fl x); [|done].
    intros H. apply reaches_step. by eapply reaches_here.
  - intros H. apply IH1 in H. eapply reaches_trans; [exact H|].
    intros b' a' c'. apply IH2.
  - destruct (rmatch fl r1 b a c k) eqn:E.
    + intros [= ->]. by eapply IH1.
    + apply IH2.
  - apply rep_loop_reaches. intros b' a' c' k' o'. apply IH.
  - destruct (xorb _ _); [apply reaches_here | done].
  - destruct a as [|x [|y a]]; [apply reaches_here| |done].
    destruct (x =? 10)%N; [apply reaches_here | done].
  - destruct a; [apply reaches_here | done].
  - destruct (rmatch fl r b a c _), positive; try done; apply reaches_here.
  - intros H. apply IH in H. eapply reaches_trans; [exact H|].
    intros b' a' c' H'. exact (reaches_here k b' a' _ o H').
Qed.
End Matcher.

Section Substrings.
Import PyStr Re.

Lemma startswith_spec (p s : text) :
  startswith p s = true ↔ ∃ t, s = p ++ t.
Proof.
  revert s. induction p as [|x p IH]; intros s; simpl.
  - split; [by exists s | done].
  - destruct s as [|y s]; [split; [done | by intros [? ?]]|].
    rewrite andb_true_iff, N.eqb_eq, IH. split.
    + intros [-> [t ->]]. by exists t.
    + intros [t [= -> ->]]. eauto.
Qed.

Lemma contains_spec (p s : text) :
  contains p s = true ↔ ∃ l1 l2, s = l1 ++ p ++ l2.
Proof.
  induction s as [|y s IH]; simpl.
  - rewrite orb_false_r, startswith_spec. split.
    + intros [t ->]. by exists [], t.
    + intros (l1 & l2 & H). symmetry in H.
      apply app_eq_nil in H as [-> H]. apply app_eq_nil in H as [-> ->].
      by exists [].
  - rewrite orb_true_iff, startswith_spec, IH. split.
    + intros [[t ->]|(l1 & l2 & ->)]; [by exists [], t | by exists (y :: l1), l2].
    + intros (l1 & l2 & H). destruct l1 as [|z l1]; simpl in H.
      * left. by exists l2.
      * injection H as -> ->. right. by exists l1, l2.
Qed.

Lemma match_is_prefix fl r b a o :
  rmatch fl r b a [] accept = Some o →
  ∃ rest, a = m_text (mk_match b o) ++ rest.
Proof.
  intros H. apply rmatch_reaches in H as (mid & a' & c' & -> & [= <-]).
  exists a'. simpl. f_equal.
  rewrite length_app, length_rev.
  replace (length mid + length b - length b) with (length (rev mid))
    by (rewrite length_rev; lia).
  by rewrite take_app_length, rev_involutive.
Qed.

Lemma scan_infix fl r : ∀ a b skip m,
  m ∈ scan fl r b a skip → ∃ l1 l2, a = l1 ++ m_text m ++ l2.
Proof.
  assert (Hcons : ∀ (x : N) a (m : mtch),
    (∃ l1 l2, a = l1 ++ m_text m ++ l2) →
    ∃ l1 l2, x :: a = l1 ++ m_text m ++ l2).
  { intros x a m (l1 & l2 & ->). by exists (x :: l1), l2. }
  induction a as [|x a IH]; intros b skip m; simpl.
  - destruct skip; [|by rewrite elem_of_nil].
    destruct (rmatch fl r b [] [] accept) eqn:E; [|by rewrite elem_of_nil].
    rewrite list_elem_of_singleton. intros ->.
    apply match_is_prefix in E as [rest E]. by exists [], rest.
  - destruct skip as [|n]; [|by intros H%IH; apply Hcons].
    destruct (rmatch fl r b (x :: a) [] accept) eqn:E.
    + rewrite elem_of_cons. intros [->|H%IH]; [|by apply Hcons].
      apply match_is_prefix in E as [rest E]. by exists [], rest.
    + by intros H%IH; apply Hcons.
Qed.

Lemma findall_contains r s fl (word : text) :
  word ∈ findall r s fl → contains word s = true.
Proof.
  unfold findall, finditer. rewrite list_elem_of_fmap.
  intros (m & -> & H). apply contains_spec. by eapply scan_infix.
Qed.
End Substrings.

Section KeywordMatch.
Import PyStr Re Py FeatureExtractor Spec.
Local Open Scope Q_scope.
Local Opaque TECH_SKILLS filler_words.

Lemma clamp_bounds (lo hi x : Q) : lo <= hi → lo <= clamp lo hi x <= hi.
Proof. intros H. unfold clamp. qminmax_cases; lra. Qed.

Lemma clamp_monotone (lo hi x y : Q) : x <= y → clamp lo hi x <= clamp lo hi y.
Proof. intros H. unfold clamp. qminmax_cases; lra. Qed.

Lemma no_keywords_in_empty : important_keywords (lower []) = ∅.
Proof. by vm_compute. Qed.

Lemma total_matches_spec (resume_text jd_lower : text) :
  total_matches resume_text jd_lower
  = (Z.of_nat (size (matches resume_text jd_lower))
     + 2 * Z.of_nat (size (tech_matches resume_text jd_lower)))%Z.
Proof. unfold total_matches. lia. Qed.

Lemma div_ok (a b : Q) : ¬ b == 0 → div a b = Ok (a / b).
Proof.
  intros H. unfold div. destruct (Qeq_bool b 0) eqn:E; [|done].
  by apply Qeq_bool_eq in E.
Qed.

(** The arithmetic of the match once the four sizes are known. *)
Lemma match_score_arith (n t m tm : nat) :
  n ≠ 0%nat →
  (if Nat.eqb n 0 then mret 50
   else if (Z.of_nat n + Z.of_nat t =? 0)%Z then mret 50
   else ratio ← div (inject_Z (Z.of_nat m + Z.of_nat tm * 2))
                    (inject_Z (Z.of_nat n + Z.of_nat t));
        mret (Qmax 10 (Qmin 95 (ratio * 100))))
  = Ok (clamp 10 95
          (inject_Z (Z.of_nat m + 2 * Z.of_nat tm)
           / inject_Z (Z.of_nat n + Z.of_nat t) * 100)).
Proof.
  intros Hn. destruct (Nat.eqb_spec n 0); [contradiction|].
  destruct (Z.eqb_spec (Z.of_nat n + Z.of_nat t) 0); [exfalso; lia|].
  rewrite div_ok.
  - replace (Z.of_nat m + Z.of_nat tm * 2)%Z
      with (Z.of_nat m + 2 * Z.of_nat tm)%Z by lia.
    reflexivity.
  - intros H. unfold Qeq in H. simpl in H. lia.
Qed.

Lemma calculate_keyword_match_spec (resume_text : text) (job_description : option text) :
  _calculate_keyword_match resume_text job_description
  = Ok (keyword_match resume_text job_description).
Proof.
  unfold _calculate_keyword_match, keyword_match.
  destruct job_description as [[|c jd]|]; unfold given.
  - rewrite (decide_True (P := _ = ∅)); [reflexivity|].
    apply no_keywords_in_empty.
  - set (jd_lower := lower (c :: jd)).
    unfold total_important, total_matches, match_ratio.
    destruct (decide (important_keywords jd_lower = ∅)) as [E|E].
    + rewrite E, size_empty. reflexivity.
    + apply match_score_arith.
      intros H. apply E. apply leibniz_equiv. apply size_empty_iff. exact H.
  - reflexivity.
Qed.

(** C1.  The keyword match returns 50 when there is no job description
    and 50 when the set of important keywords is empty; otherwise it
    returns the match ratio (keyword matches plus doubled technical
    matches, over the important keywords plus the technical terms of the
    job description) times 100, clamped to 10..95.  The score is always
    between 10 and 95, the score 50 included. *)
Theorem keyword_match_score (resume_text : text) (job_description : option text) :
  _calculate_keyword_match resume_text job_description
  = Ok (keyword_match resume_text job_description)
  ∧ keyword_match resume_text None = 50
  ∧ 10 <= keyword_match resume_text job_description <= 95.
Proof.
  split; [apply calculate_keyword_match_spec|]. split; [reflexivity|].
  unfold keyword_match. destruct job_description as [jd|]; [|lra].
  destruct (decide _); [lra|]. apply clamp_bounds. lra.
Qed.

(** *** Monotonicity *)

Lemma elem_of_tech_terms_in (term txt : text) :
  term ∈ tech_terms_in txt ↔ contains term txt = true ∧ term ∈ TECH_SKILLS.
Proof. unfold tech_terms_in. by rewrite elem_of_filter. Qed.

Lemma elem_of_matches (resume_text jd_lower term : text) :
  term ∈ matches resume_text jd_lower
  ↔ term ∈ important_keywords jd_lower ∧ term ∈ all_resume_terms resume_text.
Proof. unfold matches. exact (elem_of_intersection _ _ _). Qed.

Lemma elem_of_tech_matches (resume_text jd_lower term : text) :
  term ∈ tech_matches resume_text jd_lower
  ↔ term ∈ tech_terms_in jd_lower ∧ term ∈ tech_terms_in resume_text.
Proof. unfold tech_matches. exact (elem_of_intersection _ _ _). Qed.

Lemma elem_of_important_keywords (jd_lower term : text) :
  term ∈ important_keywords jd_lower
  ↔ term ∈ tech_terms_in jd_lower ∨ term ∈ jd_words jd_lower.
Proof. unfold important_keywords. exact (elem_of_union _ _ _). Qed.

Lemma elem_of_all_resume_terms (resume_text term : text) :
  term ∈ all_resume_terms resume_text
  ↔ term ∈ resume_words resume_text ∨ term ∈ tech_terms_in resume_text.
Proof. unfold all_resume_terms. exact (elem_of_union _ _ _). Qed.

Lemma resume_word_contained (resume_text term : text) :
  term ∈ resume_words resume_text → contains term resume_text = true.
Proof.
  unfold resume_words. rewrite elem_of_list_to_set. apply findall_contains.
Qed.

Local Opaque tech_terms_in matches tech_matches important_keywords
  all_resume_terms resume_words jd_words.

Lemma resume_term_contained (resume_text term : text) :
  term ∈ all_resume_terms resume_text → contains term resume_text = true.
Proof.
  intros [H|H]%elem_of_all_resume_terms.
  - by apply resume_word_contained.
  - by apply elem_of_tech_terms_in in H as [H _].
Qed.

(** A technical term of the job description that the resume matches as a
    word is found in the resume as a substring too. *)
Lemma elem_of_tech_matches_alt (resume_text jd_lower term : text) :
  term ∈ tech_matches resume_text jd_lower
  ↔ term ∈ jd_tech jd_lower ∧ term ∈ matches resume_text jd_lower.
Proof.
  unfold jd_tech. split.
  - intros H. apply elem_of_tech_matches in H. destruct H as [Hjd Hres].
    split; [exact Hjd|]. apply elem_of_matches. split.
    + apply elem_of_important_keywords. left. exact Hjd.
    + apply elem_of_all_resume_terms. right. exact Hres.
  - intros [Hjd H]. apply elem_of_matches in H. destruct H as [_ Hres].
    apply elem_of_tech_matches. split; [exact Hjd|].
    apply elem_of_tech_terms_in. split.
    + apply resume_term_contained. exact Hres.
    + apply elem_of_tech_terms_in in Hjd. destruct Hjd as [_ Hjd]. exact Hjd.
Qed.

(** The sizes of the two overlaps grow with the overlap of the words. *)
Lemma overlap_sizes_monotone (resume_text resume_text' jd_lower : text) :
  matches resume_text jd_lower ⊆ matches resume_text' jd_lower →
  (size (matches resume_text jd_lower) ≤ size (matches resume_text' jd_lower))%nat
  ∧ (size (tech_matches resume_text jd_lower)
     ≤ size (tech_matches resume_text' jd_lower))%nat.
Proof.
  intros Hsub. split; apply subseteq_size; [exact Hsub|].
  intros term H. apply elem_of_tech_matches_alt in H. destruct H as [Hjd H].
  apply elem_of_tech_matches_alt. split; [exact Hjd|]. apply Hsub. exact H.
Qed.

Lemma ratio_monotone (m m' t t' n j : nat) :
  (m ≤ m')%nat → (t ≤ t')%nat →
  inject_Z (Z.of_nat m + 2 * Z.of_nat t) / inject_Z (Z.of_nat n + Z.of_nat j)
  <= inject_Z (Z.of_nat m' + 2 * Z.of_nat t')
     / inject_Z (Z.of_nat n + Z.of_nat j).
Proof.
  intros H1 H2.
  apply Qmult_le_compat_r.
  - rewrite <- Zle_Qle. lia.
  - apply Qinv_le_0_compat. change 0 with (inject_Z 0).
    rewrite <- Zle_Qle. lia.
Qed.

Lemma match_ratio_monotone (resume_text resume_text' jd_lower : text) :
  matches resume_text jd_lower ⊆ matches resume_text' jd_lower →
  match_ratio resume_text jd_lower <= match_ratio resume_text' jd_lower.
Proof.
  intros Hsub. apply overlap_sizes_monotone in Hsub. destruct Hsub as [H1 H2].
  unfold match_ratio. apply ratio_monotone; assumption.
Qed.

(** C6.  For a fixed job description, a resume whose overlap with the
    important keywords of the job description is larger never has a
    smaller keyword match score. *)
Theorem keyword_match_monotone (resume_text resume_text' jd : text) :
  matches resume_text (lower jd) ⊆ matches resume_text' (lower jd) →
  ∃ score score',
    _calculate_keyword_match resume_text (Some jd) = Ok score
    ∧ _calculate_keyword_match resume_text' (Some jd) = Ok score'
    ∧ score <= score'.
Proof.
  intros Hsub. exists (keyword_match resume_text (Some jd)),
    (keyword_match resume_text' (Some jd)).
  split; [apply calculate_keyword_match_spec|].
  split; [apply calculate_keyword_match_spec|].
  unfold keyword_match. destruct (decide _); [lra|].
  apply clamp_monotone.
  apply Qmult_le_compat_r; [by apply match_ratio_monotone | lra].
Qed.

Lemma keyword_match_monotone_witness :
  ∃ score score',
    _calculate_keyword_match (str "java")
      (Some (str "Python, Java, Kubernetes, Terraform")) = Ok score
    ∧ _calculate_keyword_match (str "java and python")
        (Some (str "Python, Java, Kubernetes, Terraform")) = Ok score'
    ∧ score <= score'.
Proof.
  apply keyword_match_monotone.
  apply (bool_decide_unpack _). vm_compute. exact I.
Defined.

(** The two scores of the example above are 30 and 60. *)
Example keyword_match_values :
  (score ← _calculate_keyword_match (str "java")
             (Some (str "Python, Java, Kubernetes, Terraform"));
   mret (Qred score)) = Ok 30
  ∧ (score ← _calculate_keyword_match (str "java and python")
               (Some (str "Python, Java, Kubernetes, Terraform"));
     mret (Qred score)) = Ok 60.
Proof. vm_compute. split; reflexivity. Qed.

End KeywordMatch.

Section Totality.
Import PyStr Re Py FeatureExtractor.
Local Open Scope Q_scope.
Local Opaque TECH_SKILLS filler_words ACTION_VERBS JOB_TITLES languages.

Lemma bind_ok {A B} (a : A) (f : A → result B) : (Ok a ≫= f) = f a.
Proof. reflexivity. Qed.

Lemma div_floor_ok (a : Q) (n : Z) :
  div a (inject_Z (Z.max n 1)) = Ok (a / inject_Z (Z.max n 1)).
Proof.
  apply div_ok. intros H. unfold Qeq in H. simpl in H. lia.
Qed.

Lemma max_list_ok (x : Z) (l : list Z) : ∃ y, max_list (x :: l) = Ok y.
Proof. simpl. eauto. Qed.

Lemma extract_years_experience_ok (txt : text) :
  ∃ years, _extract_years_experience txt = Ok years.
Proof.
  unfold _extract_years_experience.
  match goal with
  | |- ∃ y, match ?l with [] => _ | _ => _ end = _ => destruct l
  end; [by exists 0%Z | apply max_list_ok].
Qed.

Lemma get_readability_score_ok flesch (txt : text) :
  _get_readability_score flesch txt
  = Ok (match flesch txt with
        | Ok score => Qmax 20 (Qmin 100 score)
        | Raise _ => 60
        end).
Proof.
  unfold _get_readability_score. by destruct (flesch txt).
Qed.

(** C8.  Feature extraction is total: for every resume text, every job
    description and whatever the readability library does, a feature
    vector with the 31 fields is returned.  The average lengths divide by
    a count floored at 1, and the readability score is 60 when the
    library raises. *)
Theorem extract_features_total (flesch : text → result Q)
    (resume_text : text) (job_description : option text) :
  ∃ fv,
    extract_features flesch resume_text job_description = Ok fv
    ∧ dom fv = list_to_set MLService.feature_order
    ∧ fv !! "avg_word_length"%string
      = Some (VFloat (round
          (inject_Z (Z.of_nat (length resume_text))
           / inject_Z (Z.max (_count_words (lower resume_text)) 1) / 1.2) 2))
    ∧ fv !! "avg_sentence_length"%string
      = Some (VFloat (round
          (inject_Z (_count_words (lower resume_text))
           / inject_Z (Z.max (_count_sentences (lower resume_text)) 1)) 2))
    ∧ fv !! "readability_score"%string
      = Some (VFloat (match flesch resume_text with
                      | Ok score => Qmax 20 (Qmin 100 score)
                      | Raise _ => 60
                      end)).
Proof.
  unfold extract_features.
  destruct (extract_years_experience_ok (lower resume_text)) as [years Hy].
  rewrite (div_floor_ok (inject_Z (Z.of_nat (length resume_text)))), bind_ok.
  rewrite (div_ok _ 1.2) by (intros H; discriminate H).
  rewrite bind_ok, div_floor_ok, bind_ok, Hy, bind_ok.
  rewrite get_readability_score_ok, bind_ok.
  rewrite calculate_keyword_match_spec, bind_ok.
  eexists. split; [reflexivity|].
  generalize (Spec.keyword_match (lower resume_text) job_description).
  generalize (match flesch resume_text with
              | Ok score => Qmax 20 (Qmin 100 score)
              | Raise _ => 60
              end).
  generalize (round
          (inject_Z (Z.of_nat (length resume_text))
           / inject_Z (Z.max (_count_words (lower resume_text)) 1) / 1.2) 2).
  generalize (round
          (inject_Z (_count_words (lower resume_text))
           / inject_Z (Z.max (_count_sentences (lower resume_text)) 1)) 2).
  generalize (_check_consistent_formatting resume_text)
             (_check_length (_count_words (lower resume_text)))
             (_count_bullet_points resume_text)
             (Z.of_nat (length resume_text)).
  generalize (lower resume_text). intros txt.
  generalize (_count_words txt) (_count_sentences txt) (_count_sections txt)
    (_has_section txt "summary") (_has_section txt "experience")
    (_has_section txt "education") (_has_section txt "skills")
    (_has_section txt "projects") (_has_section txt "certifications")
    (_has_email txt) (_has_phone txt) (_has_linkedin txt) (_has_github txt)
    (_count_action_verbs txt) (_count_quantifiable_metrics txt)
    (_count_technical_terms txt) (_count_jobs txt) (_has_job_titles txt)
    (_get_degree_level txt) (_has_gpa txt) (_count_skills txt)
    (_count_programming_languages txt).
  intros. split; [|repeat split].
  rewrite dom_list_to_map_L. reflexivity.
Qed.
(** The vector of a short resume, without a job description and with the
    readability library failing: the contact details are found, the
    master's degree wins over the bachelor's, the keyword match is the
    neutral 50 and the readability the default 60. *)
Example extract_features_of_jane :
  map (Scenarios.field
         (extract_features Scenarios.unavailable Scenarios.resume_of_jane None))
      [ "has_email"; "has_phone"; "degree_level"; "keyword_match_score";
        "readability_score"; "total_words"; "total_sentences";
        "avg_word_length"; "avg_sentence_length"; "years_of_experience";
        "number_of_jobs" ]%string
  = map (λ q, Some (Qred q))
      [ 1; 1; 4; 50; 60; 27; 2; 4.51; 13.5; 4; 2 ].
Proof. vm_compute. reflexivity. Qed.

End Totality.

(** ** The label of the reference scorer *)

(** Case analysis on every comparison [Qltb] of the goal. *)
Ltac qltb_cases :=
  repeat match goal with
  | |- context [Py.Qltb ?a ?b] =>
      let E := fresh "E" in
      destruct (Py.Qltb a b) eqn:E;
      [apply Qltb_lt in E | apply Qltb_ge in E]
  end.

(** Closes a case in which a key of the chain is missing. *)
Ltac missing_key :=
  split;
  [ intros [? H]; simpl in H; discriminate H
  | intros H;
    repeat match goal with H : _ ∧ _ |- _ => destruct H end;
    match goal with H : is_Some None |- _ => destruct H as [? H]; discriminate H end ].

(** Replaces the lookups in [fs] by variables, first key first. *)
Ltac abstract_lookups fs keys :=
  lazymatch keys with
  | ?k :: ?rest => abstract_lookups fs rest; generalize (fs !! k)
  | _ => idtac
  end.

(** Bounds every [if c then p + k else p] of the goal, innermost first,
    and forgets the condition. *)
Ltac bound_ifs :=
  repeat match goal with
  | |- context [if ?c then (?p + ?k)%Q else ?p] =>
      lazymatch p with
      | context [if _ then _ else _] => fail
      | _ => idtac
      end;
      let x := fresh "p" in
      let Hx := fresh "Hp" in
      assert (Hx : (p <= (if c then p + k else p) <= p + k)%Q)
        by (destruct c; lra);
      revert Hx; generalize (if c then (p + k)%Q else p); intros x Hx
  end.

Section ReferenceScorerFacts.
Import Py MLService ReferenceScorer.
Local Open Scope Q_scope.

(** X1.  The keyword curve of the reference scorer never decreases: a
    higher match percentage never gives fewer points, across the four
    thresholds 30, 50, 70 and 85 too. *)
Theorem nonlinear_keyword_score_monotone (p q : Q) :
  p <= q → _nonlinear_keyword_score p <= _nonlinear_keyword_score q.
Proof.
  intros H. unfold _nonlinear_keyword_score. qltb_cases; lra.
Qed.

Lemma nonlinear_keyword_score_monotone_witness :
  _nonlinear_keyword_score 29 <= _nonlinear_keyword_score 30.
Proof.
  apply nonlinear_keyword_score_monotone. vm_compute. discriminate.
Defined.

(** X2.  For a match percentage between 0 and 100 the keyword points are
    between 0 and 35.05, and 35.05 is what a match of 100 gets: the
    keyword term can exceed the 35 points it is given. *)
Theorem nonlinear_keyword_score_range (p : Q) :
  0 <= p <= 100 →
  0 <= _nonlinear_keyword_score p <= 35.05
  ∧ _nonlinear_keyword_score 100 == 35.05.
Proof.
  intros H. split; [|reflexivity].
  unfold _nonlinear_keyword_score. qltb_cases; lra.
Qed.

Lemma nonlinear_keyword_score_range_witness :
  0 <= _nonlinear_keyword_score 60 <= 35.05
  ∧ _nonlinear_keyword_score 100 == 35.05.
Proof.
  apply nonlinear_keyword_score_range. split; vm_compute; discriminate.
Defined.

(** On whole numbers of positions and metrics the experience term is the
    one of [IndustryGradeATSGenerator]. *)
Lemma experience_score_agrees (years : Q) (num_jobs metrics : Z) (hopping : bool) :
  _nonlinear_experience_score years (inject_Z num_jobs) (inject_Z metrics) hopping
  = IndustryGradeATSGenerator._nonlinear_experience_score years num_jobs metrics hopping.
Proof.
  unfold _nonlinear_experience_score,
    IndustryGradeATSGenerator._nonlinear_experience_score,
    IndustryGradeATSGenerator.exp_base_unpenalized.
  assert (E1 : negb (Qltb (inject_Z num_jobs) 2) && negb (Qltb 5 (inject_Z num_jobs))
               = ((2 <=? num_jobs) && (num_jobs <=? 5))%Z).
  { apply eq_true_iff_eq. rewrite !andb_true_iff, !negb_true_iff, !Qltb_ge.
    rewrite Z.leb_le, Z.leb_le. change 2 with (inject_Z 2). change 5 with (inject_Z 5).
    rewrite <- !Zle_Qle. reflexivity. }
  assert (E2 : Qltb 5 (inject_Z num_jobs) = (5 <? num_jobs)%Z).
  { apply eq_true_iff_eq. rewrite Qltb_lt, Z.ltb_lt. change 5 with (inject_Z 5).
    rewrite <- Zlt_Qlt. reflexivity. }
  rewrite E1, E2. reflexivity.
Qed.

(** X3.  The experience term is at most 25 for every input, and at most
    24 when the job hopping flag is set: a flagged resume never reaches
    the cap. *)
Theorem experience_score_capped (years num_jobs metrics : Q) (hopping : bool) :
  _nonlinear_experience_score years num_jobs metrics hopping <= 25
  ∧ _nonlinear_experience_score years num_jobs metrics true <= 24.
Proof.
  unfold _nonlinear_experience_score. split.
  - apply Q.le_min_l.
  - cbv zeta. generalize (metrics * 0.4). intros m.
    destruct (negb _ && negb _); qltb_cases; qminmax_cases; lra.
Qed.

(** X4.  With the positions, the metrics and the job hopping flag fixed,
    more years of experience never give a smaller experience term. *)
Theorem experience_score_monotone_in_years
    (years years' num_jobs metrics : Q) (hopping : bool) :
  years <= years' →
  _nonlinear_experience_score years num_jobs metrics hopping
  <= _nonlinear_experience_score years' num_jobs metrics hopping.
Proof.
  intros H. unfold _nonlinear_experience_score. cbv zeta.
  generalize (Qmin 4 (metrics * 0.4)). intros m.
  generalize (Qmin 3 (num_jobs * 0.8)). intros j.
  destruct (negb _ && negb _), (Qltb 5 num_jobs), hopping;
    qltb_cases; qminmax_cases; lra.
Qed.

Lemma experience_score_monotone_in_years_witness :
  _nonlinear_experience_score 2 3 4 false
  <= _nonlinear_experience_score 8 3 4 false.
Proof.
  apply experience_score_monotone_in_years. vm_compute. discriminate.
Defined.

(** *** Penalties *)

Lemma penalties_defined (fs : features) :
  is_Some (_calculate_penalties fs)
  ↔ Forall (λ key, is_Some (fs !! key)) penalty_keys.
Proof.
  unfold _calculate_penalties, penalty_keys, flag, item.
  rewrite !Forall_cons, Forall_nil. cbv beta.
  abstract_lookups fs
    [ "has_email"; "has_phone"; "has_experience"; "has_education";
      "has_skills"; "years_of_experience"; "number_of_jobs";
      "consistent_formatting"; "total_words"; "has_job_titles" ]%string.
  intros o1 o2 o3 o4 o5 o6 o7 o8 o9 o10.
  destruct o1; [|missing_key]. destruct o2; [|missing_key].
  destruct o3; [|missing_key]. destruct o4; [|missing_key].
  destruct o5; [|missing_key]. destruct o6; [|missing_key].
  destruct o7; [|missing_key]. destruct o8; [|missing_key].
  destruct o9; [|missing_key]. destruct o10; [|missing_key].
  split; [|by eexists]. intros _. repeat split; by eexists.
Qed.

(** X5.  The penalty of the reference scorer is between 0 and 64, the
    sum of all nine red flags (the word count takes one of its two
    penalties at most). *)
Theorem calculate_penalties_range (fs : features) (penalty : Q) :
  _calculate_penalties fs = Some penalty → 0 <= penalty <= 64.
Proof.
  unfold _calculate_penalties, flag, item.
  abstract_lookups fs
    [ "has_email"; "has_phone"; "has_experience"; "has_education";
      "has_skills"; "years_of_experience"; "number_of_jobs";
      "consistent_formatting"; "total_words"; "has_job_titles" ]%string.
  intros o1 o2 o3 o4 o5 o6 o7 o8 o9 o10.
  destruct o1 as [v1|]; [|discriminate]. destruct o2 as [v2|]; [|discriminate].
  destruct o3 as [v3|]; [|discriminate]. destruct o4 as [v4|]; [|discriminate].
  destruct o5 as [v5|]; [|discriminate]. destruct o6 as [v6|]; [|discriminate].
  destruct o7 as [v7|]; [|discriminate]. destruct o8 as [v8|]; [|discriminate].
  destruct o9 as [v9|]; [|discriminate]. destruct o10 as [v10|]; [|discriminate].
  simpl. intros [= <-].
  destruct (Qltb (num v9) 250), (Qltb 1000 (num v9)); bound_ifs; lra.
Qed.

Lemma calculate_penalties_range_witness :
  _calculate_penalties Inputs.every_red_flag = Some 64 ∧ 0 <= 64 <= 64.
Proof.
  split; [vm_compute; reflexivity|].
  apply (calculate_penalties_range Inputs.every_red_flag).
  vm_compute. reflexivity.
Defined.

(** X6.  A vector without an email address and without the experience,
    education and skills sections is penalised by 43 points at least. *)
Theorem calculate_penalties_missing_sections (fs : features) (penalty : Q) :
  _calculate_penalties fs = Some penalty →
  flag fs "has_email" = Some false →
  flag fs "has_experience" = Some false →
  flag fs "has_education" = Some false →
  flag fs "has_skills" = Some false →
  43 <= penalty.
Proof.
  unfold _calculate_penalties. intros H He Hx Hd Hs. revert H.
  rewrite He, Hx, Hd, Hs. unfold flag, item.
  abstract_lookups fs
    [ "has_phone"; "years_of_experience"; "number_of_jobs";
      "consistent_formatting"; "total_words"; "has_job_titles" ]%string.
  intros o2 o6 o7 o8 o9 o10.
  destruct o2 as [v2|]; [|discriminate]. destruct o6 as [v6|]; [|discriminate].
  destruct o7 as [v7|]; [|discriminate]. destruct o8 as [v8|]; [|discriminate].
  destruct o9 as [v9|]; [|discriminate]. destruct o10 as [v10|]; [|discriminate].
  simpl. intros [= <-].
  destruct (Qltb (num v9) 250), (Qltb 1000 (num v9)); bound_ifs; lra.
Qed.

Lemma calculate_penalties_missing_sections_witness :
  _calculate_penalties Inputs.missing_sections = Some 46 ∧ 43 <= 46.
Proof.
  split; [vm_compute; reflexivity|].
  apply (calculate_penalties_missing_sections Inputs.missing_sections);
    vm_compute; reflexivity.
Defined.

(** *** The label *)

Lemma raw_score_defined (fs : features) :
  is_Some (raw_score fs) ↔ Forall (λ key, is_Some (fs !! key)) raw_keys.
Proof.
  unfold raw_score, raw_keys, flag, item.
  rewrite !Forall_cons, Forall_nil. cbv beta.
  abstract_lookups fs
    [ "keyword_match_score"; "years_of_experience"; "number_of_jobs";
      "quantifiable_metrics"; "total_skills_mentioned";
      "programming_languages"; "action_verb_count"; "degree_level"; "has_gpa";
      "has_experience"; "has_education"; "has_skills"; "has_email";
      "has_phone"; "consistent_formatting" ]%string.
  intros o1 o2 o3 o4 o5 o6 o7 o8 o9 o10 o11 o12 o13 o14 o15.
  destruct o1; [|missing_key]. destruct o2; [|missing_key].
  destruct o3; [|missing_key]. destruct o4; [|missing_key].
  destruct o5; [|missing_key]. destruct o6; [|missing_key].
  destruct o7; [|missing_key]. destruct o8; [|missing_key].
  destruct o9; [|missing_key]. destruct o10; [|missing_key].
  destruct o11; [|missing_key]. destruct o12; [|missing_key].
  destruct o13; [|missing_key]. destruct o14; [|missing_key].
  destruct o15; [|missing_key].
  split; [|by eexists]. intros _. repeat split; by eexists.
Qed.

End ReferenceScorerFacts.

(** ** The scores of a prediction *)

Section Rounding.
Import Py.
Local Open Scope Q_scope.

Lemma round_half_even_le (x : Q) (z : Z) :
  x <= inject_Z z → (round_half_even x ≤ z)%Z.
Proof.
  intros H. unfold round_half_even.
  assert (Hf := Qfloor_le x).
  assert (Hf' : (Qfloor x ≤ z)%Z).
  { rewrite Zle_Qle. lra. }
  destruct (Qcompare_spec (x - inject_Z (Qfloor x)) (1 # 2)) as [E|E|E];
    [destruct (Z.even (Qfloor x))| |]; try lia.
  all: assert (Hlt : (Qfloor x < z)%Z)
         by (rewrite Zlt_Qlt; lra); lia.
Qed.

Lemma round_half_even_ge (x : Q) (z : Z) :
  inject_Z z <= x → (z ≤ round_half_even x)%Z.
Proof.
  intros H. unfold round_half_even.
  assert (Hf : (z ≤ Qfloor x)%Z).
  { rewrite <- (Qfloor_Z z). by apply Qfloor_resp_le. }
  destruct (Qcompare (x - inject_Z (Qfloor x)) (1 # 2));
    [destruct (Z.even (Qfloor x))| |]; lia.
Qed.

(** Rounding to one decimal keeps a number on its side of an integer. *)
Lemma round_1_le (x : Q) (hi : Z) : x <= inject_Z hi → round x 1 <= inject_Z hi.
Proof.
  intros Hhi. unfold round. change (inject_Z (10 ^ Z.of_nat 1)) with 10.
  assert (H2 : (round_half_even (x * 10) ≤ hi * 10)%Z).
  { apply round_half_even_le. rewrite inject_Z_mult.
    change (inject_Z 10) with 10. lra. }
  rewrite Zle_Qle, inject_Z_mult in H2. change (inject_Z 10) with 10 in *.
  apply Qle_shift_div_r; lra.
Qed.

Lemma round_1_ge (x : Q) (lo : Z) : inject_Z lo <= x → inject_Z lo <= round x 1.
Proof.
  intros Hlo. unfold round. change (inject_Z (10 ^ Z.of_nat 1)) with 10.
  assert (H1 : (lo * 10 ≤ round_half_even (x * 10))%Z).
  { apply round_half_even_ge. rewrite inject_Z_mult.
    change (inject_Z 10) with 10. lra. }
  rewrite Zle_Qle, inject_Z_mult in H1. change (inject_Z 10) with 10 in *.
  apply Qle_shift_div_l; lra.
Qed.

Lemma round_1_bounds (x : Q) (lo hi : Z) :
  inject_Z lo <= x <= inject_Z hi →
  inject_Z lo <= round x 1 <= inject_Z hi.
Proof. intros [Hlo Hhi]. split; [by apply round_1_ge | by apply round_1_le]. Qed.
End Rounding.

Section ScoreRanges.
Import Py MLService.
Local Open Scope Q_scope.

Lemma fallback_score_range (fs : features) : 0 <= fallback_score fs <= 100.
Proof.
  unfold fallback_score. cbv zeta.
  match goal with |- _ <= Qmax 0 (Qmin 100 ?s) <= _ => generalize s end.
  intros s. qminmax_cases; lra.
Qed.

Lemma rounded_score_range (s : Q) : 0 <= s <= 100 → 0 <= round s 1 <= 100.
Proof. intros H. apply (round_1_bounds s 0 100). exact H. Qed.

Lemma bind_raise {A B} (e : exn) (f : A → result B) : (Raise e ≫= f) = Raise e.
Proof. reflexivity. Qed.

(** One step of a chain of binds: the first computation returns, or the
    chain raises. *)
Ltac bind_step m x :=
  destruct m as [x|]; [rewrite bind_ok | rewrite bind_raise; discriminate].

(** What the model path returns when it returns. *)
Lemma model_path_result (self : service) (fs : features) (r : prediction) :
  model_path self fs = Ok r →
  ∃ score,
    overall_score r = round (Qmax 0 (Qmin 100 score)) 1
    ∧ breakdown_of r = _generate_breakdown fs 0
    ∧ suggestions r = _generate_suggestions fs 0.
Proof.
  unfold model_path. unfold mret at 1, result_ret at 1. rewrite bind_ok.
  bind_step (match self_scaler self with
             | Some transform => transform [_features_to_array fs]
             | None => mret [_features_to_array fs]
             end) feature_array.
  bind_step (the_model self) m.
  bind_step (predict m feature_array) scores.
  bind_step (first scores) score.
  bind_step (_get_confidence self feature_array) c.
  intros [= <-]. exists score. repeat split.
Qed.

Lemma predict_ats_score_returns (self : service) (fs : features) :
  ∃ r, predict_ats_score self fs = Ok r.
Proof.
  unfold predict_ats_score. destruct (self_model_loaded self); simpl.
  - destruct (model_path self fs); simpl; eauto.
  - eauto.
Qed.

Lemma predict_score_bounds (self : service) (fs : features) (r : prediction) :
  predict_ats_score self fs = Ok r → 0 <= overall_score r <= 100.
Proof.
  assert (Hfb : 0 <= overall_score (_fallback_prediction fs) <= 100).
  { simpl. apply rounded_score_range, fallback_score_range. }
  unfold predict_ats_score. destruct (self_model_loaded self); simpl.
  - destruct (model_path self fs) as [by_model|] eqn:E; simpl.
    + intros [= <-]. apply model_path_result in E as (score & -> & _).
      apply rounded_score_range. qminmax_cases; lra.
    + intros [= <-]. exact Hfb.
  - intros [= <-]. exact Hfb.
Qed.



(** *** The breakdown *)

(** X10.  No entry of the breakdown exceeds 100, and the formatting
    entry is at least 40. *)
Theorem breakdown_caps (fs : features) (overall : Q) :
  keywords (_generate_breakdown fs overall) <= 100
  ∧ experience (_generate_breakdown fs overall) <= 100
  ∧ 40 <= formatting (_generate_breakdown fs overall) <= 100
  ∧ skills (_generate_breakdown fs overall) <= 100
  ∧ structure (_generate_breakdown fs overall) <= 100.
Proof.
  unfold _generate_breakdown. cbv zeta.
  cbn [keywords experience formatting skills structure].
  repeat split; try (apply (round_1_le _ 100), Q.le_min_l).
  - apply (round_1_ge _ 40). unfold formatting_points.
    destruct (getb fs "appropriate_length"), (getb fs "consistent_formatting"),
      (Qltb 5 (getn fs "bullet_point_count" 0)); unfold inject_Z;
      qminmax_cases; lra.
Qed.

Lemma getn_non_negative (fs : features) (key : string) (default : Z) :
  Inputs.non_negative fs → (0 ≤ default)%Z → 0 <= getn fs key default.
Proof.
  intros Hfs Hd. unfold getn, get. destruct (fs !! key) as [v|] eqn:E.
  - apply Qle_bool_iff. exact (Hfs key v E).
  - simpl. change 0 with (inject_Z 0). by rewrite <- Zle_Qle.
Qed.

(** X11.  For a dictionary without negative numbers every entry of the
    breakdown is between 0 and 100. *)
Theorem breakdown_range (fs : features) (overall : Q) :
  Inputs.non_negative fs →
  0 <= keywords (_generate_breakdown fs overall) <= 100
  ∧ 0 <= experience (_generate_breakdown fs overall) <= 100
  ∧ 0 <= formatting (_generate_breakdown fs overall) <= 100
  ∧ 0 <= skills (_generate_breakdown fs overall) <= 100
  ∧ 0 <= structure (_generate_breakdown fs overall) <= 100.
Proof.
  intros Hfs.
  assert (Hn : ∀ key default, (0 ≤ default)%Z → 0 <= getn fs key default)
    by (intros; by apply getn_non_negative).
  unfold _generate_breakdown. cbv zeta.
  cbn [keywords experience formatting skills structure].
  pose proof (Hn "keyword_match_score"%string 50%Z ltac:(lia)).
  pose proof (Hn "action_verb_count"%string 0%Z ltac:(lia)).
  pose proof (Hn "quantifiable_metrics"%string 0%Z ltac:(lia)).
  pose proof (Hn "years_of_experience"%string 0%Z ltac:(lia)).
  pose proof (Hn "total_skills_mentioned"%string 0%Z ltac:(lia)).
  pose proof (Hn "programming_languages"%string 0%Z ltac:(lia)).
  pose proof (Hn "total_sections"%string 0%Z ltac:(lia)).
  repeat split; try (apply (round_1_le _ 100), Q.le_min_l);
    apply (round_1_ge _ 0); unfold formatting_points, inject_Z;
    repeat match goal with
    | |- context [if ?c then _ else _] => destruct c
    end; qminmax_cases; lra.
Qed.

Lemma breakdown_range_witness :
  0 <= keywords (_generate_breakdown Inputs.strong_resume 0) <= 100
  ∧ 0 <= experience (_generate_breakdown Inputs.strong_resume 0) <= 100
  ∧ 0 <= formatting (_generate_breakdown Inputs.strong_resume 0) <= 100
  ∧ 0 <= skills (_generate_breakdown Inputs.strong_resume 0) <= 100
  ∧ 0 <= structure (_generate_breakdown Inputs.strong_resume 0) <= 100.
Proof.
  apply breakdown_range. unfold Inputs.non_negative.
  apply (bool_decide_unpack _). vm_compute. exact I.
Defined.
End ScoreRanges.

Section NoSuggestion.
Import Py MLService.
Local Open Scope Q_scope.

Lemma when_nil (c : bool) (x : suggestion) : when c x = [] ↔ c = false.
Proof. destruct c; simpl; split; congruence. Qed.

Lemma sort_by_nil {A} (key : A → Z) (l : list A) : sort_by key l = [] ↔ l = [].
Proof.
  split; [|by intros ->].
  intros H. apply length_zero_iff_nil.
  rewrite <- (sort_by_length key), H. reflexivity.
Qed.

Lemma length_rule_nil (fs : features) :
  length_rule fs = []
  ↔ getb fs "appropriate_length" = true
    ∨ (300 <= getn fs "total_words" 0 ∧ getn fs "total_words" 0 <= 1000).
Proof.
  unfold length_rule.
  destruct (getb fs "appropriate_length"); simpl; [tauto|].
  destruct (Qltb (getn fs "total_words" 0) 300) eqn:E1.
  - apply Qltb_lt in E1. split; [discriminate|]. intros [?|[? ?]]; [discriminate|lra].
  - apply Qltb_ge in E1.
    destruct (Qltb 1000 (getn fs "total_words" 0)) eqn:E2.
    + apply Qltb_lt in E2. split; [discriminate|]. intros [?|[? ?]]; [discriminate|lra].
    + apply Qltb_ge in E2. split; [|reflexivity]. intros _. right. split; assumption.
Qed.

Lemma sections_rule_nil (fs : features) :
  sections_rule fs = []
  ↔ 4 <= getn fs "total_sections" 0
    ∨ (getb fs "has_summary" = true ∧ getb fs "has_skills" = true).
Proof.
  unfold sections_rule.
  destruct (Qltb (getn fs "total_sections" 0) 4) eqn:E.
  - apply Qltb_lt in E.
    destruct (getb fs "has_summary"), (getb fs "has_skills"); simpl;
      (split; [try discriminate; intros _; right; split; reflexivity
              | try reflexivity; intros [?|[? ?]]; try discriminate; lra]).
  - apply Qltb_ge in E. split; [|reflexivity]. intros _. left. exact E.
Qed.

(** X12.  No suggestion is made exactly when the keyword match is 60 at
    least, there are 10 action verbs and 5 metrics at least, the length
    is appropriate or the word count is within 300..1000, there are 4
    sections at least or both a summary and a skills section, 8 skills at
    least, an email address and a phone number, and 5 bullet points at
    least. *)
Theorem no_suggestion (fs : features) (score : Q) :
  _generate_suggestions fs score = []
  ↔ 60 <= getn fs "keyword_match_score" 50
    ∧ 10 <= getn fs "action_verb_count" 0
    ∧ 5 <= getn fs "quantifiable_metrics" 0
    ∧ (getb fs "appropriate_length" = true
       ∨ (300 <= getn fs "total_words" 0 ∧ getn fs "total_words" 0 <= 1000))
    ∧ (4 <= getn fs "total_sections" 0
       ∨ (getb fs "has_summary" = true ∧ getb fs "has_skills" = true))
    ∧ 8 <= getn fs "total_skills_mentioned" 0
    ∧ (getb fs "has_email" = true ∧ getb fs "has_phone" = true)
    ∧ 5 <= getn fs "bullet_point_count" 0.
Proof.
  rewrite generate_suggestions_sorted, sort_by_nil. unfold rules.
  rewrite !app_nil, !when_nil, length_rule_nil, sections_rule_nil, !Qltb_ge.
  rewrite orb_false_iff, !negb_false_iff. tauto.
Qed.
End NoSuggestion.

(** ** Ranges of the extracted features *)

Section FeatureRanges.
Import PyStr Re Py FeatureExtractor.
Local Open Scope Q_scope.
Local Opaque TECH_SKILLS filler_words ACTION_VERBS JOB_TITLES languages.

(** X13.  The readability score is always returned and is between 20 and
    100, whatever the readability library returns or raises. *)
Theorem readability_score_range (flesch : text → result Q) (txt : text) :
  ∃ score, _get_readability_score flesch txt = Ok score ∧ 20 <= score <= 100.
Proof.
  rewrite get_readability_score_ok. eexists. split; [reflexivity|].
  destruct (flesch txt); qminmax_cases; lra.
Qed.

Lemma sumZ_from (l : list Z) (acc : Z) :
  Forall (λ n, 0 ≤ n)%Z l → (acc ≤ fold_left Z.add l acc)%Z.
Proof.
  revert acc. induction l as [|n l IH]; intros acc H; simpl; [lia|].
  apply Forall_cons in H as [Hn Hl]. specialize (IH (acc + n)%Z Hl). lia.
Qed.

Lemma sumZ_non_negative (l : list Z) :
  Forall (λ n, 0 ≤ n)%Z l → (0 ≤ sumZ l)%Z.
Proof. apply sumZ_from. Qed.

Lemma count_matches_non_negative r txt fl : (0 ≤ count_matches r txt fl)%Z.
Proof. unfold count_matches. lia. Qed.

(** X14.  The counts of a text stay in their ranges: the metrics and the
    skills are between 0 and 50, the skills are at least the technical
    terms up to 50, there is one position at least, the sections are
    between 0 and 6, and the action verbs are at most the words. *)
Theorem count_ranges (txt : text) :
  (0 ≤ _count_quantifiable_metrics txt ≤ 50)%Z
  ∧ (0 ≤ _count_skills txt ≤ 50)%Z
  ∧ (_count_technical_terms txt `min` 50 ≤ _count_skills txt)%Z
  ∧ (1 ≤ _count_jobs txt)%Z
  ∧ (0 ≤ _count_sections txt ≤ 6)%Z
  ∧ (0 ≤ _count_action_verbs txt ≤ _count_words txt)%Z.
Proof.
  repeat apply conj.
  - unfold _count_quantifiable_metrics.
    assert (0 ≤ sumZ (map (λ pattern, count_matches pattern txt ignorecase)
                          metric_patterns))%Z; [|lia].
    apply sumZ_non_negative, Forall_map, Forall_forall.
    intros ? _. apply count_matches_non_negative.
  - unfold _count_quantifiable_metrics. lia.
  - unfold _count_skills, _count_technical_terms.
    destruct (search _ _ _); lia.
  - unfold _count_skills. destruct (search _ _ _); lia.
  - unfold _count_skills. destruct (search _ _ _); lia.
  - unfold _count_jobs. lia.
  - unfold _count_sections. lia.
  - unfold _count_sections.
    match goal with |- (Z.of_nat (length (List.filter ?f ?l)) ≤ _)%Z =>
      pose proof (List.filter_length_le f l) as H end.
    change (length SECTION_KEYWORDS) with 6%nat in H. lia.
  - unfold _count_action_verbs. lia.
  - unfold _count_action_verbs, _count_words. cbv zeta.
    match goal with |- (Z.of_nat (length (List.filter ?f ?l)) ≤ _)%Z =>
      pose proof (List.filter_length_le f l) end. lia.
Qed.
End FeatureRanges.

Section Profiles.
Import PyStr Re Py FeatureExtractor.

Lemma contains_prefix (p q s : text) :
  contains (p ++ q) s = true → contains p s = true.
Proof.
  rewrite !contains_spec. intros (l1 & l2 & ->).
  exists l1, (q ++ l2). by rewrite <- app_assoc.
Qed.

Lemma contains_longer_false (p q s : text) :
  contains p s = false → contains (p ++ q) s = false.
Proof.
  intros H. destruct (contains (p ++ q) s) eqn:E; [|done].
  apply contains_prefix in E. congruence.
Qed.

(** X15.  A GitHub profile is found exactly when the text contains
    "github", and a LinkedIn profile exactly when it contains "linkedin"
    or "/in/": the longer patterns of the two lists add nothing. *)
Theorem profile_links (txt : text) :
  _has_github txt = contains (str "github") txt
  ∧ _has_linkedin txt
    = contains (str "linkedin") txt || contains (str "/in/") txt.
Proof.
  unfold _has_github, _has_linkedin. simpl existsb. split.
  - change (str "github.com") with (str "github" ++ str ".com").
    change (str "github:") with (str "github" ++ str ":").
    change (str "github.io") with (str "github" ++ str ".io").
    destruct (contains (str "github") txt) eqn:E.
    + by rewrite !orb_true_r.
    + by rewrite !(contains_longer_false _ _ _ E).
  - change (str "linkedin.com") with (str "linkedin" ++ str ".com").
    change (str "linkedin:") with (str "linkedin" ++ str ":").
    destruct (contains (str "linkedin") txt) eqn:E.
    + by rewrite !orb_true_r.
    + rewrite !(contains_longer_false _ _ _ E). simpl. by rewrite orb_false_r.
Qed.
End Profiles.

(** ** Two runs of the matcher *)

Section MatcherSimulation.
Import PyStr Re Simulation.

Variable fl : flags.
Variable rel : N → N → Prop.
Hypothesis rel_sym : ∀ x y, rel x y → rel y x.
Hypothesis rel_chr : ∀ p x y, rel x y → chr_ok fl p x = chr_ok fl p y.
Hypothesis rel_any : ∀ x y, rel x y → any_ok fl x = any_ok fl y.
Hypothesis rel_word : ∀ x y, rel x y → is_word x = is_word y.
Hypothesis rel_newline : ∀ x y, rel x y → (x =? 10)%N = (y =? 10)%N.

Lemma Forall2_rel_sym (l l' : text) : Forall2 rel l l' → Forall2 rel l' l.
Proof. induction 1; constructor; auto. Qed.

Lemma word_at_rel (l l' : text) : Forall2 rel l l' → word_at l = word_at l'.
Proof. destruct 1; simpl; auto. Qed.

Lemma is_Some_orelse {A} (m1 m2 : option A) :
  is_Some (match m1 with Some o => Some o | None => m2 end)
  ↔ is_Some m1 ∨ is_Some m2.
Proof.
  destruct m1; simpl; split; eauto.
  - intros [[? ?]|?]; [discriminate | done].
Qed.

Lemma rep_loop_sim (step : matcher) greedy lo :
  (∀ b a c b' a' c' k k',
     Forall2 rel b b' → Forall2 rel a a' → cont_le rel k k' →
     is_Some (step b a c k) → is_Some (step b' a' c' k')) →
  ∀ k k', cont_le rel k k' →
  ∀ fuel i b a c b' a' c',
    Forall2 rel b b' → Forall2 rel a a' →
    is_Some (rep_loop step greedy lo k fuel i b a c) →
    is_Some (rep_loop step greedy lo k' fuel i b' a' c').
Proof.
  intros Hstep k k' Hk. induction fuel as [|fuel IH];
    intros i b a c b' a' c' Hb Ha; simpl.
  - destruct (lo <=? i); [by apply Hk | by intros [? ?]].
  - assert (Hstop : is_Some (if lo <=? i then k b a c else None) →
                    is_Some (if lo <=? i then k' b' a' c' else None)).
    { destruct (lo <=? i); [by apply Hk | done]. }
    assert (Hmore :
      is_Some (step b a c (λ b1 a1 c1,
        if length a1 <? length a
        then rep_loop step greedy lo k fuel (S i) b1 a1 c1 else None)) →
      is_Some (step b' a' c' (λ b1 a1 c1,
        if length a1 <? length a'
        then rep_loop step greedy lo k' fuel (S i) b1 a1 c1 else None))).
    { apply Hstep; [done..|].
      intros b1 a1 c1 b1' a1' c1' Hb1 Ha1.
      rewrite (Forall2_length _ _ _ Ha), (Forall2_length _ _ _ Ha1).
      destruct (length a1' <? length a'); [by apply IH | done]. }
    destruct greedy; rewrite !is_Some_orelse; tauto.
Qed.

(** A pattern that matches at a position of a text matches at the same
    position of a related text. *)
Lemma rmatch_sim (r : regex) : ∀ b a c b' a' c' k k',
  Forall2 rel b b' → Forall2 rel a a' → cont_le rel k k' →
  is_Some (rmatch fl r b a c k) → is_Some (rmatch fl r b' a' c' k').
Proof.
  induction r as [|p| |r1 IH1 r2 IH2|r1 IH1 r2 IH2|greedy lo hi r IH| | |
                  |positive r IH|i r IH];
    intros b a c b' a' c' k k' Hb Ha Hk; simpl.
  - by apply Hk.
  - destruct Ha as [|x y a a' Hxy Ha]; [done|].
    rewrite (rel_chr p x y Hxy). destruct (chr_ok fl p y); [|done].
    apply Hk; [by constructor | done].
  - destruct Ha as [|x y a a' Hxy Ha]; [done|].
    rewrite (rel_any x y Hxy). destruct (any_ok fl y); [|done].
    apply Hk; [by constructor | done].
  - apply IH1; [done..|]. intros b1 a1 c1 b1' a1' c1' Hb1 Ha1.
    by apply IH2.
  - rewrite !is_Some_orelse. intros [H|H]; [left | right].
    + by eapply IH1.
    + by eapply IH2.
  - rewrite (Forall2_length _ _ _ Ha).
    apply rep_loop_sim; [|done..]. intros. by eapply IH.
  - rewrite (word_at_rel _ _ Hb), (word_at_rel _ _ Ha).
    destruct (xorb _ _); [by apply Hk | done].
  - destruct Ha as [|x y a a' Hxy Ha]; [by apply Hk|].
    destruct Ha; [|done]. rewrite (rel_newline x y Hxy).
    destruct (y =? 10)%N; [|done]. apply Hk; [done|]. by repeat constructor.
  - destruct Ha; [by apply Hk | done].
  - assert (Hin : is_Some (rmatch fl r b a c (λ b1 a1 c1, Some (b1, a1, c1)))
                  ↔ is_Some (rmatch fl r b' a' c' (λ b1 a1 c1, Some (b1, a1, c1)))).
    { split; apply IH; try done; try (by apply Forall2_rel_sym);
        intros ? ? ? ? ? ? _ _ _; by eexists. }
    destruct (rmatch fl r b a c _) as [o|], (rmatch fl r b' a' c' _) as [o'|],
      positive; try done; try (by apply Hk).
    + destruct Hin as [Hin _]. destruct Hin as [? ?]; [by eexists | done].
    + destruct Hin as [_ Hin]. destruct Hin as [? ?]; [by eexists | done].
  - apply IH; [done..|]. intros b1 a1 c1 b1' a1' c1' Hb1 Ha1. by apply Hk.
Qed.
End MatcherSimulation.

Section Searches.
Import PyStr Re Simulation.

Lemma Forall2_eq_refl (l : text) : Forall2 eq l l.
Proof. induction l; constructor; auto. Qed.

Lemma cont_le_always (rel : N → N → Prop) (k k' : cont) :
  (∀ b a c, is_Some (k' b a c)) → cont_le rel k k'.
Proof. intros H b a c b' a' c' _ _ _. apply H. Qed.

(** [found] only depends on whether the pattern matches somewhere. *)
Lemma found_is_Some r txt fl :
  FeatureExtractor.found r txt fl = true ↔ is_Some (search_from fl r [] txt).
Proof.
  unfold FeatureExtractor.found, search.
  destruct (search_from fl r [] txt); split; intros H.
  - by eexists.
  - reflexivity.
  - discriminate H.
  - by destruct H.
Qed.

(** A search succeeds on a related text when every match of the first
    pattern is a match of the second one there. *)
Lemma found_sim fl rel r r' :
  (∀ b a b' a', Forall2 rel b b' → Forall2 rel a a' →
     is_Some (rmatch fl r b a [] accept) →
     is_Some (rmatch fl r' b' a' [] accept)) →
  ∀ a b a' b', Forall2 rel b b' → Forall2 rel a a' →
    is_Some (search_from fl r b a) → is_Some (search_from fl r' b' a').
Proof.
  intros H. induction a as [|x a IH]; intros b a' b' Hb Ha.
  - inversion Ha; subst. simpl.
    destruct (rmatch fl r b [] [] accept) eqn:E; [|by intros [? ?]].
    intros _. destruct (H b [] b' [] Hb Ha) as [o' ->]; by eexists.
  - inversion Ha as [|? y ? a2 Hxy Ha2]; subst. simpl.
    destruct (rmatch fl r b (x :: a) [] accept) eqn:E.
    + intros _. destruct (H b (x :: a) b' (y :: a2) Hb Ha) as [o' ->];
        by eexists.
    + intros Hs. destruct (rmatch fl r' b' (y :: a2) [] accept); [by eexists|].
      eapply IH; [| |exact Hs]; [by constructor | done].
Qed.

(** A repetition that may be empty, followed by something that always
    matches, always matches. *)
Lemma rep_loop_optional (step : matcher) greedy (k : cont) :
  (∀ b a c, is_Some (k b a c)) →
  ∀ fuel i b a c, is_Some (rep_loop step greedy 0 k fuel i b a c).
Proof.
  intros Hk. induction fuel as [|fuel IH]; intros i b a c; simpl; [done|].
  destruct greedy.
  - destruct (step b a c _); [by eexists | done].
  - destruct (Hk b a c) as [o ->]. by eexists.
Qed.

Lemma header_tail_optional fl (cls : N → bool) b a c :
  is_Some (rmatch fl (Cat (star s) (opt (Chr cls))) b a c accept).
Proof.
  unfold star, opt. cbn [rmatch]. apply rep_loop_optional. intros b1 a1 c1.
  apply rep_loop_optional. intros. by eexists.
Qed.

Lemma eq_rel_sim fl r b a c c' k k' :
  cont_le eq k k' →
  is_Some (rmatch fl r b a c k) → is_Some (rmatch fl r b a c' k').
Proof.
  intros Hk. apply (rmatch_sim fl eq); try (by intros; subst);
    try apply Forall2_eq_refl; done.
Qed.

Lemma found_weaken fl r r' txt :
  (∀ b a, is_Some (rmatch fl r b a [] accept) →
          is_Some (rmatch fl r' b a [] accept)) →
  FeatureExtractor.found r txt fl = true →
  FeatureExtractor.found r' txt fl = true.
Proof.
  intros H. rewrite !found_is_Some.
  apply (found_sim fl eq); [|apply Forall2_eq_refl..].
  intros b a b' a' Eb Ea. apply list_eq_Forall2 in Eb, Ea. subst b' a'.
  apply H.
Qed.
End Searches.

Section Sections.
Import PyStr Re Simulation FeatureExtractor.

(** A header pattern finds a section name exactly where the bare name,
    between word boundaries, is found: what may follow a name is
    optional. *)
Lemma section_header_bounded (name : string) (txt : text) :
  found (section_header name) txt ignorecase
  = found (bounded [lit name]) txt ignorecase.
Proof.
  set (tail := Cat (star s)
                 (opt (Chr (fun c => (c =? 58)%N || (c =? newline)%N)))).
  assert (Hh : ∀ b a k,
    rmatch ignorecase (section_header name) b a [] k
    = rmatch ignorecase WordB b a [] (λ b1 a1 c1,
        rmatch ignorecase (lit name) b1 a1 c1 (λ b2 a2 c2,
          rmatch ignorecase WordB b2 a2 c2 (λ b3 a3 c3,
            rmatch ignorecase tail b3 a3 c3 k)))) by reflexivity.
  assert (Hb : ∀ b a k,
    rmatch ignorecase (bounded [lit name]) b a [] k
    = rmatch ignorecase WordB b a [] (λ b1 a1 c1,
        rmatch ignorecase (lit name) b1 a1 c1 (λ b2 a2 c2,
          rmatch ignorecase WordB b2 a2 c2 k))) by reflexivity.
  assert (Hstep : ∀ r b a c c' k k',
    (∀ b1 a1 c1 c1', is_Some (k b1 a1 c1) → is_Some (k' b1 a1 c1')) →
    is_Some (rmatch ignorecase r b a c k) →
    is_Some (rmatch ignorecase r b a c' k')).
  { intros r b a c c' k k' Hk. apply eq_rel_sim.
    intros b1 a1 c1 b1' a1' c1' Eb Ea.
    apply list_eq_Forall2 in Eb, Ea. subst b1' a1'. apply Hk. }
  apply eq_true_iff_eq. split; apply found_weaken; intros b a;
    rewrite Hh, Hb; apply Hstep; intros b1 a1 c1 c1';
    apply Hstep; intros b2 a2 c2 c2'; apply Hstep; intros b3 a3 c3 c3' _.
  - by eexists.
  - apply header_tail_optional.
Qed.

(** X16.  The number of sections is the number of the six section flags
    that are set: a section is counted exactly when one of its names
    occurs between word boundaries, although the count looks for a header
    pattern and the flags for the bare name. *)
Theorem count_sections_flags (txt : text) :
  _count_sections txt
  = (b2z (_has_section txt "summary") + b2z (_has_section txt "experience")
     + b2z (_has_section txt "education") + b2z (_has_section txt "skills")
     + b2z (_has_section txt "projects")
     + b2z (_has_section txt "certifications"))%Z.
Proof.
  unfold _count_sections.
  rewrite (filter_ext _
    (fun section_names =>
       existsb (fun name => found (bounded [lit name]) txt ignorecase)
               (snd section_names))).
  2:{ intros [sec names]. simpl. induction names as [|n names IH]; [done|].
      simpl. by rewrite section_header_bounded, IH. }
  unfold _has_section.
  change (section_keywords "summary") with (snd (nth 0 SECTION_KEYWORDS ("", []))).
  change (section_keywords "experience") with (snd (nth 1 SECTION_KEYWORDS ("", []))).
  change (section_keywords "education") with (snd (nth 2 SECTION_KEYWORDS ("", []))).
  change (section_keywords "skills") with (snd (nth 3 SECTION_KEYWORDS ("", []))).
  change (section_keywords "projects") with (snd (nth 4 SECTION_KEYWORDS ("", []))).
  change (section_keywords "certifications") with (snd (nth 5 SECTION_KEYWORDS ("", []))).
  unfold SECTION_KEYWORDS. cbn [List.filter nth snd].
  repeat match goal with
  | |- context [if existsb ?f ?l then _ else _] =>
      generalize (existsb f l); intros ?
  end.
  repeat match goal with b : bool |- _ => destruct b end; reflexivity.
Qed.
End Sections.

Section LetterCase.
Import PyStr Re Simulation FeatureExtractor.

Ltac letter_cases :=
  cbv [same_letter chr_ok any_ok is_word is_alpha is_digit is_lower
       is_upper to_lower to_upper in_range] in *;
  repeat match goal with
  | |- context [(?a <=? ?b)%N] => destruct (N.leb_spec a b)
  | |- context [(?a =? ?b)%N] => destruct (N.eqb_spec a b)
  | H : context [(?a <=? ?b)%N] |- _ => destruct (N.leb_spec a b)
  end; simpl in *; try reflexivity; try lia.

Lemma to_upper_to_lower (x : N) : to_upper (to_lower x) = to_upper x.
Proof. letter_cases. Qed.

Lemma to_lower_or_upper (x : N) : x = to_lower x ∨ x = to_upper x.
Proof. letter_cases; auto. Qed.

Lemma same_letter_chr (p : N → bool) (x y : N) :
  same_letter x y → chr_ok ignorecase p x = chr_ok ignorecase p y.
Proof.
  intros H. unfold chr_ok. cbn [IGNORECASE ignorecase andb].
  rewrite <- (to_upper_to_lower x), <- (to_upper_to_lower y).
  unfold same_letter in H. rewrite <- H.
  assert (Hx := to_lower_or_upper x). assert (Hy := to_lower_or_upper y).
  rewrite <- (to_upper_to_lower x) in Hx.
  rewrite <- (to_upper_to_lower y) in Hy. rewrite <- H in Hy.
  destruct Hx as [Hx|Hx], Hy as [Hy|Hy]; rewrite Hx at 1; rewrite Hy at 1;
    destruct (p (to_lower x)), (p (to_upper (to_lower x))); reflexivity.
Qed.

Lemma to_lower_newline (x : N) : (to_lower x =? 10)%N = (x =? 10)%N.
Proof. letter_cases. Qed.

Lemma to_lower_word (x : N) : is_word (to_lower x) = is_word x.
Proof.
  unfold to_lower. destruct (is_upper x) eqn:E; [|reflexivity].
  unfold is_word, is_alpha. rewrite E, orb_true_r.
  unfold is_upper, in_range in E. apply andb_true_iff in E as [H1 H2].
  apply N.leb_le in H1, H2. unfold is_lower, in_range.
  replace (97 <=? x + 32)%N with true by (symmetry; apply N.leb_le; lia).
  replace (x + 32 <=? 122)%N with true by (symmetry; apply N.leb_le; lia).
  reflexivity.
Qed.

Lemma same_letter_newline (x y : N) :
  same_letter x y → (x =? 10)%N = (y =? 10)%N.
Proof.
  intros H. rewrite <- (to_lower_newline x), <- (to_lower_newline y).
  by rewrite H.
Qed.

Lemma same_letter_word (x y : N) : same_letter x y → is_word x = is_word y.
Proof.
  intros H. rewrite <- (to_lower_word x), <- (to_lower_word y). by rewrite H.
Qed.

Lemma same_letters (txt txt' : text) :
  lower txt = lower txt' → Forall2 same_letter txt txt'.
Proof.
  revert txt'. induction txt as [|x txt IH]; intros [|y txt'] H;
    try discriminate H; constructor.
  - by injection H.
  - apply IH. by injection H.
Qed.

(** A search that ignores case finds a pattern in both of two texts that
    differ in case only, or in neither. *)
Lemma found_ignorecase (r : regex) (txt txt' : text) :
  lower txt = lower txt' → found r txt ignorecase = found r txt' ignorecase.
Proof.
  intros H. apply eq_true_iff_eq. rewrite !found_is_Some.
  assert (Hrel : ∀ t t', Forall2 same_letter t t' →
            is_Some (search_from ignorecase r [] t) →
            is_Some (search_from ignorecase r [] t')).
  { intros t t' Ht. apply (found_sim ignorecase same_letter); try done.
    intros b a b' a' Hb Ha.
    apply (rmatch_sim ignorecase same_letter); try done.
    - apply same_letter_chr.
    - intros x y E. unfold any_ok. by rewrite (same_letter_newline x y E).
    - apply same_letter_word.
    - apply same_letter_newline.
    - apply cont_le_always. intros. by eexists. }
  split; apply Hrel; apply same_letters; [done | by symmetry].
Qed.

Lemma existsb_found_ignorecase (rs : list regex) (txt txt' : text) :
  lower txt = lower txt' →
  existsb (fun r => found r txt ignorecase) rs
  = existsb (fun r => found r txt' ignorecase) rs.
Proof.
  intros H. induction rs as [|r rs IH]; [done|]. simpl.
  by rewrite (found_ignorecase r txt txt' H), IH.
Qed.

(** X17.  Two ASCII texts that differ in the case of their letters only
    have the same section flags, the same number of sections, the same
    email flag, the same degree level and the same GPA flag. *)
Theorem letter_case_ignored (txt txt' : text) :
  is_ascii txt → is_ascii txt' → lower txt = lower txt' →
  (∀ section, _has_section txt section = _has_section txt' section)
  ∧ _count_sections txt = _count_sections txt'
  ∧ _has_email txt = _has_email txt'
  ∧ _get_degree_level txt = _get_degree_level txt'
  ∧ _has_gpa txt = _has_gpa txt'.
Proof.
  intros _ _ H. split.
  { intros section. unfold _has_section.
    induction (section_keywords section) as [|kw kws IH]; [done|]. simpl.
    by rewrite (found_ignorecase _ txt txt' H), IH. }
  split.
  { unfold _count_sections. do 2 f_equal. apply filter_ext.
    intros [sec names]. cbn [snd].
    induction names as [|n names IH]; [done|]. simpl.
    by rewrite (found_ignorecase _ txt txt' H), IH. }
  split; [by apply found_ignorecase|]. split.
  - unfold _get_degree_level.
    induction degree_patterns as [|[level patterns] rest IH]; [done|].
    simpl. unfold tier_matches.
    by rewrite (existsb_found_ignorecase patterns txt txt' H), IH.
  - by apply existsb_found_ignorecase.
Qed.

Lemma letter_case_ignored_witness :
  _get_degree_level (str "MBA, Stanford") = _get_degree_level (str "mba, stanford")
  ∧ _has_gpa (str "MBA, Stanford") = _has_gpa (str "mba, stanford").
Proof.
  destruct (letter_case_ignored (str "MBA, Stanford") (str "mba, stanford"))
    as (_ & _ & _ & Hd & Hg).
  - unfold is_ascii. repeat constructor.
  - unfold is_ascii. repeat constructor.
  - reflexivity.
  - split; [exact Hd | exact Hg].
Defined.
End LetterCase.

(** ** The two ends of the keyword match *)

Section KeywordExtremes.
Import PyStr Re Py FeatureExtractor Spec.
Local Open Scope Q_scope.
Local Opaque TECH_SKILLS filler_words.
Local Opaque tech_terms_in matches tech_matches important_keywords
  all_resume_terms resume_words jd_words.

Lemma ratio_zero (n j : nat) :
  clamp 10 95 (inject_Z (Z.of_nat 0 + 2 * Z.of_nat 0)
               / inject_Z (Z.of_nat n + Z.of_nat j) * 100) == 10.
Proof.
  assert (H : inject_Z (Z.of_nat 0 + 2 * Z.of_nat 0)
              / inject_Z (Z.of_nat n + Z.of_nat j) * 100 == 0).
  { change (inject_Z (Z.of_nat 0 + 2 * Z.of_nat 0)) with 0.
    unfold Qdiv. ring. }
  unfold clamp. qminmax_cases; lra.
Qed.

Lemma ratio_full (n j : nat) :
  n ≠ 0%nat →
  clamp 10 95 (inject_Z (Z.of_nat n + 2 * Z.of_nat j)
               / inject_Z (Z.of_nat n + Z.of_nat j) * 100) == 95.
Proof.
  intros Hn.
  assert (H : 1 <= inject_Z (Z.of_nat n + 2 * Z.of_nat j)
                   / inject_Z (Z.of_nat n + Z.of_nat j)).
  { apply Qle_shift_div_l.
    - change 0 with (inject_Z 0). rewrite <- Zlt_Qlt. lia.
    - rewrite Qmult_1_l. rewrite <- Zle_Qle. lia. }
  unfold clamp. qminmax_cases; lra.
Qed.

Lemma no_tech_matches (resume_text jd_lower : text) :
  matches resume_text jd_lower = ∅ → tech_matches resume_text jd_lower = ∅.
Proof.
  intros H. apply leibniz_equiv. apply elem_of_equiv_empty. intros term Ht.
  apply elem_of_tech_matches_alt in Ht. destruct Ht as [_ Ht].
  rewrite H in Ht. by apply elem_of_empty in Ht.
Qed.

Lemma all_matched (resume_text jd_lower : text) :
  important_keywords jd_lower ⊆ all_resume_terms resume_text →
  matches resume_text jd_lower = important_keywords jd_lower
  ∧ tech_matches resume_text jd_lower = jd_tech jd_lower.
Proof.
  intros Hsub.
  assert (Hm : ∀ term, term ∈ matches resume_text jd_lower
                       ↔ term ∈ important_keywords jd_lower).
  { intros term. rewrite elem_of_matches. split; [by intros [? _]|].
    intros H. split; [exact H | by apply Hsub]. }
  split; apply leibniz_equiv; intros term; [apply Hm|].
  rewrite elem_of_tech_matches_alt, Hm. split; [by intros [? _]|].
  intros H. split; [exact H|]. apply elem_of_important_keywords. by left.
Qed.

(** X18.  For a job description with important keywords, a resume that
    has none of them scores 10, and a resume whose terms include all of
    them scores 95. *)
Theorem keyword_match_extremes (resume_text jd : text) :
  important_keywords (lower jd) ≠ ∅ →
  (matches resume_text (lower jd) = ∅ →
   ∃ score, _calculate_keyword_match resume_text (Some jd) = Ok score
            ∧ score == 10)
  ∧ (important_keywords (lower jd) ⊆ all_resume_terms resume_text →
     ∃ score, _calculate_keyword_match resume_text (Some jd) = Ok score
              ∧ score == 95).
Proof.
  intros Hne.
  assert (Hn : size (important_keywords (lower jd)) ≠ 0%nat).
  { intros H. apply Hne. apply leibniz_equiv. by apply size_empty_iff. }
  assert (Hk : keyword_match resume_text (Some jd)
               = clamp 10 95 (match_ratio resume_text (lower jd) * 100)).
  { unfold keyword_match.
    destruct (decide (important_keywords (lower jd) = ∅)) as [E|E].
    - exfalso. exact (Hne E).
    - reflexivity. }
  split; intros H; exists (keyword_match resume_text (Some jd)).
  - split; [apply calculate_keyword_match_spec|].
    rewrite Hk. unfold match_ratio.
    rewrite (no_tech_matches _ _ H), H, size_empty. apply ratio_zero.
  - split; [apply calculate_keyword_match_spec|].
    rewrite Hk. unfold match_ratio.
    destruct (all_matched _ _ H) as [-> ->]. apply ratio_full. exact Hn.
Qed.

Lemma keyword_match_extremes_witness :
  (∃ score, _calculate_keyword_match (str "cooking and baking")
              (Some (str "Python, Java, Kubernetes")) = Ok score
            ∧ score == 10)
  ∧ (∃ score, _calculate_keyword_match (str "java, python and kubernetes")
                (Some (str "Python, Java, Kubernetes")) = Ok score
              ∧ score == 95).
Proof.
  split.
  - apply (keyword_match_extremes (str "cooking and baking")
             (str "Python, Java, Kubernetes")).
    + apply (bool_decide_unpack _). vm_compute. exact I.
    + apply (bool_decide_unpack _). vm_compute. exact I.
  - apply (keyword_match_extremes (str "java, python and kubernetes")
             (str "Python, Java, Kubernetes")).
    + apply (bool_decide_unpack _). vm_compute. exact I.
    + apply (bool_decide_unpack _). vm_compute. exact I.
Defined.
End KeywordExtremes.

(** ** The model path and the loading of the model *)

Section ModelPath.
Import Py MLService.
Local Open Scope Q_scope.

Lemma get_confidence_ok (self : service) (x : batch) :
  ∃ c, _get_confidence self x = Ok c.
Proof.
  unfold _get_confidence.
  match goal with |- ∃ c, try_except ?m _ = _ => destruct m as [c|e] end;
    simpl; eauto.
Qed.


End ModelPath.

Section Loaded.
Import PyStr Py MLService Loading.
Local Open Scope Q_scope.


End Loaded.

(** ** From the text of a resume to its prediction *)

Section Pipeline.
Import PyStr Re Py FeatureExtractor MLService App.
Local Open Scope Q_scope.
Local Opaque TECH_SKILLS filler_words ACTION_VERBS JOB_TITLES languages.

(** The fields of an extracted vector that the rule on the length
    reads. *)
Lemma extract_features_fields (flesch : text → result Q)
    (resume_text : text) (job_description : option text) :
  ∃ fv,
    extract_features flesch resume_text job_description = Ok fv
    ∧ fv !! "total_words"%string = Some (VInt (_count_words (lower resume_text)))
    ∧ fv !! "appropriate_length"%string
      = Some (VBool (_check_length (_count_words (lower resume_text)))).
Proof.
  unfold extract_features.
  destruct (extract_years_experience_ok (lower resume_text)) as [years Hy].
  rewrite (div_floor_ok (inject_Z (Z.of_nat (length resume_text)))), bind_ok.
  rewrite (div_ok _ 1.2) by (intros H; discriminate H).
  rewrite bind_ok, div_floor_ok, bind_ok, Hy, bind_ok.
  rewrite get_readability_score_ok, bind_ok.
  rewrite calculate_keyword_match_spec, bind_ok.
  eexists. split; [reflexivity|].
  generalize (Spec.keyword_match (lower resume_text) job_description).
  generalize (match flesch resume_text with
              | Ok score => Qmax 20 (Qmin 100 score)
              | Raise _ => 60
              end).
  generalize (round
          (inject_Z (Z.of_nat (length resume_text))
           / inject_Z (Z.max (_count_words (lower resume_text)) 1) / 1.2) 2).
  generalize (round
          (inject_Z (_count_words (lower resume_text))
           / inject_Z (Z.max (_count_sentences (lower resume_text)) 1)) 2).
  generalize (_check_consistent_formatting resume_text)
             (_check_length (_count_words (lower resume_text)))
             (_count_bullet_points resume_text)
             (Z.of_nat (length resume_text)).
  generalize (lower resume_text). intros txt.
  generalize (_count_words txt) (_count_sentences txt) (_count_sections txt)
    (_has_section txt "summary") (_has_section txt "experience")
    (_has_section txt "education") (_has_section txt "skills")
    (_has_section txt "projects") (_has_section txt "certifications")
    (_has_email txt) (_has_phone txt) (_has_linkedin txt) (_has_github txt)
    (_count_action_verbs txt) (_count_quantifiable_metrics txt)
    (_count_technical_terms txt) (_count_jobs txt) (_has_job_titles txt)
    (_get_degree_level txt) (_has_gpa txt) (_count_skills txt)
    (_count_programming_languages txt).
  intros. repeat split.
Qed.

(** X21.  The text endpoint answers 400 exactly when the resume text,
    stripped, has fewer than 50 characters; otherwise it returns a
    prediction, with an overall score between 0 and 100.  It never
    answers 500. *)
Theorem text_endpoint (flesch : text → result Q) (ml_service : service)
    (resume_text : text) (job_description : option text) :
  match predict_ats_score_from_text flesch ml_service resume_text
          job_description with
  | HTTPException status_code =>
      status_code = 400%Z ∧ (length (strip resume_text) < 50)%nat
  | Returned result =>
      (50 ≤ length (strip resume_text))%nat ∧ 0 <= overall_score result <= 100
  end.
Proof.
  unfold predict_ats_score_from_text.
  destruct (Nat.ltb_spec (length (strip resume_text)) 50) as [Hlt|Hge].
  - rewrite orb_true_r. split; [reflexivity | exact Hlt].
  - rewrite orb_false_r.
    destruct (Nat.eqb_spec (length resume_text) 0) as [E|_].
    { apply length_zero_iff_nil in E. subst resume_text.
      vm_compute in Hge. exfalso. lia. }
    destruct (extract_features_fields flesch resume_text job_description)
      as (fv & -> & _).
    rewrite bind_ok.
    destruct (predict_ats_score_returns ml_service fv) as [r Hr]. rewrite Hr.
    split; [exact Hge|]. by apply (predict_score_bounds ml_service fv).
Qed.

(** X22.  On the vector extracted from a resume, the suggestion that the
    resume is too brief is made exactly when the resume has fewer than
    250 words, and the suggestion that it is too long exactly when it has
    more than 1000: the extractor marks 250..900 words as an appropriate
    length, so the threshold 300 of the rule decides nothing. *)
Theorem extracted_length_suggestion (flesch : text → result Q)
    (resume_text : text) (job_description : option text) :
  ∃ fv,
    extract_features flesch resume_text job_description = Ok fv
    ∧ ∀ score,
        (too_brief ∈ _generate_suggestions fv score
         ↔ (_count_words (lower resume_text) < 250)%Z)
        ∧ (too_long ∈ _generate_suggestions fv score
           ↔ (1000 < _count_words (lower resume_text))%Z).
Proof.
  destruct (extract_features_fields flesch resume_text job_description)
    as (fv & Hfv & Hw & Ha).
  exists fv. split; [exact Hfv|]. intros score.
  rewrite !elem_of_generate_suggestions.
  rewrite !length_suggestion_from_rule by reflexivity.
  unfold length_rule, getb, getn, get. rewrite Hw, Ha.
  cbn [num truthy]. unfold _check_length.
  set (words := _count_words (lower resume_text)).
  assert (Q1 : Qltb (inject_Z words) 300 = (words <? 300)%Z).
  { apply eq_true_iff_eq. rewrite Qltb_lt, Z.ltb_lt.
    change 300 with (inject_Z 300). by rewrite <- Zlt_Qlt. }
  assert (Q2 : Qltb 1000 (inject_Z words) = (1000 <? words)%Z).
  { apply eq_true_iff_eq. rewrite Qltb_lt, Z.ltb_lt.
    change 1000 with (inject_Z 1000). by rewrite <- Zlt_Qlt. }
  rewrite Q1, Q2.
  destruct (Z.leb_spec 250 words) as [L1|L1],
    (Z.leb_spec words 900) as [L2|L2],
    (Z.ltb_spec words 300) as [L3|L3],
    (Z.ltb_spec 1000 words) as [L4|L4]; cbn [andb negb];
    rewrite ?list_elem_of_singleton, ?elem_of_nil;
    (split; split; intros Hx; try lia; try discriminate Hx;
     try reflexivity; try contradiction; try (exfalso; lia)).
Qed.
End Pipeline.
